(** * Request handlers of the store application (store/views.py)

    A shallow embedding of the viewsets of [my_ecommerce_app/store/views.py].
    The database is an explicit record of tables that every handler reads and
    returns; a Python exception is a [Raise] result.  The parts of Django and
    of the REST framework that the handlers call (manager methods, the default
    [destroy], the permission classes) are written out next to them. *)

From stdpp Require Import base numbers strings gmap list.

Set Warnings "-register-all".

Local Open Scope string_scope.
Local Open Scope Z_scope.

(** ** Values, exceptions and results *)

(** Python values that travel in request and response bodies. *)
Inductive JSON : Type :=
| JNull
| JBool (b : bool)
| JInt (z : Z)
| JStr (s : string)
| JList (l : list JSON)
| JDict (items : list (string * JSON)).

(** The exceptions the handlers and the framework calls under them raise. *)
Inductive Exception : Type :=
| TypeError
| ValueError
| KeyError (key : string)
| UnboundLocalError (name : string)
| DoesNotExist
| MultipleObjectsReturned
| AssertionError
| Http404
| ValidationError (detail : JSON)
| NotAuthenticated
| PermissionDenied.

Inductive Result (A : Type) : Type :=
| Ok (a : A)
| Raise (e : Exception).
Arguments Ok {A} a.
Arguments Raise {A} e.

(** rest_framework.status *)
Definition HTTP_200_OK : Z := 200.
Definition HTTP_201_CREATED : Z := 201.
Definition HTTP_204_NO_CONTENT : Z := 204.
Definition HTTP_405_METHOD_NOT_ALLOWED : Z := 405.

(** ** The data model *)

(** Modelled from the spec: [store/models.py] is not among the sources.  Each
    entity carries its primary key and the foreign keys that section 3 of the
    specification names and that the views filter on; the other columns of a
    customer are kept as one value. *)
Module Collection.
Record t : Type := { id : Z }.
End Collection.

Module Product.
Record t : Type := { id : Z; collection_id : Z }.
End Product.

Module Review.
Record t : Type := { id : Z; product_id : Z }.
End Review.

Module CartItem.
Record t : Type := { id : Z; cart_id : Z; product_id : Z }.
End CartItem.

Module Customer.
Record t : Type := { id : Z; user_id : Z; fields : JSON }.
End Customer.

Module Order.
Record t : Type := { id : Z; customer_id : Z }.
End Order.

Module OrderItem.
Record t : Type := { id : Z; order_id : Z; product_id : Z }.
End OrderItem.

Record DB : Type := {
  collections : list Collection.t;
  products : list Product.t;
  reviews : list Review.t;
  cart_items : list CartItem.t;
  customers : list Customer.t;
  orders : list Order.t;
  order_items : list OrderItem.t
}.

(** ** Requests and responses *)

(** [request.user]: the anonymous user has [id = None], is not staff and is
    not authenticated. *)
Module User.
Record t : Type := { id : Z; is_staff : bool }.
End User.

Inductive RequestUser : Type :=
| AnonymousUser
| AuthUser (u : User.t).

Definition user_id (u : RequestUser) : option Z :=
  match u with
  | AnonymousUser => None
  | AuthUser a => Some (User.id a)
  end.

Definition is_staff (u : RequestUser) : bool :=
  match u with
  | AnonymousUser => false
  | AuthUser a => User.is_staff a
  end.

Definition is_authenticated (u : RequestUser) : bool :=
  match u with
  | AnonymousUser => false
  | AuthUser _ => true
  end.

Module Request.
Record t : Type := {
  method : string;
  user : RequestUser;
  data : JSON;
  query_params : list (string * string)
}.
End Request.

(** A view instance as a handler sees it: [self.request] and [self.kwargs],
    the keyword arguments the router took from the URL path. *)
Module View.
Record t : Type := {
  request : Request.t;
  kwargs : gmap string string
}.
End View.

Module Response.
Record t : Type := { data : JSON; status : Z }.
End Response.

(** ** Handlers as state-passing computations *)

Definition M (A : Type) : Type := DB → Result A * DB.

Definition ret {A} (a : A) : M A := λ db, (Ok a, db).
Definition raise {A} (e : Exception) : M A := λ db, (Raise e, db).
Definition bind {A B} (m : M A) (k : A → M B) : M B :=
  λ db, match m db with
        | (Ok a, db') => k a db'
        | (Raise e, db') => (Raise e, db')
        end.
Definition lift {A} (r : Result A) : M A := λ db, (r, db).
Definition gets {A} (f : DB → A) : M A := λ db, (Ok (f db), db).
Definition query {A} (f : DB → Result A) : M A := λ db, (f db, db).
Definition modify (f : DB → DB) : M unit := λ db, (Ok tt, f db).

Declare Scope handler_scope.
Delimit Scope handler_scope with handler.
Notation "x <- m ;; k" := (bind m (λ x, k))
  (at level 100, m at next level, right associativity) : handler_scope.
Notation "m ;;; k" := (bind m (λ _, k))
  (at level 100, right associativity) : handler_scope.
Local Open Scope handler_scope.

(** rest_framework.views.exception_handler: [Http404], [PermissionDenied] and
    the API exceptions become error responses (a [NotAuthenticated] one is
    401 when the authenticator sends a challenge header); for anything else
    the handler returns [None] and the exception is raised again. *)
Definition exception_handler (e : Exception) : option Z :=
  match e with
  | Http404 => Some 404
  | PermissionDenied => Some 403
  | NotAuthenticated => Some 401
  | ValidationError _ => Some 400
  | _ => None
  end.

(** The status the caller receives: an exception that goes unhandled is the
    server's error 500. *)
Definition http_status (r : Result Response.t) : Z :=
  match r with
  | Ok resp => Response.status resp
  | Raise e => default 500 (exception_handler e)
  end.

Definition is_client_error (code : Z) : bool := (400 <=? code) && (code <=? 499).
Definition is_server_error (code : Z) : bool := (500 <=? code) && (code <=? 599).

(** ** The object-relational layer *)

Module QuerySet.
(** [QuerySet.count(self)] takes no argument besides the queryset: a call
    with a positional argument is a [TypeError]. *)
Definition count {A} (args : list JSON) (qs : list A) : Result Z :=
  match args with
  | [] => Ok (Z.of_nat (length qs))
  | _ :: _ => Raise TypeError
  end.

(** [QuerySet.get]: exactly one row, or an exception. *)
Definition get {A} (qs : list A) : Result A :=
  match qs with
  | [] => Raise DoesNotExist
  | [x] => Ok x
  | _ :: _ :: _ => Raise MultipleObjectsReturned
  end.
End QuerySet.

(** [d[k]] on a Python dict. *)
Definition getitem (d : gmap string string) (k : string) : Result string :=
  match d !! k with
  | Some v => Ok v
  | None => Raise (KeyError k)
  end.

(** ** rest_framework.permissions and the permission check of a view *)

Inductive Permission : Type :=
| AllowAny
| IsAuthenticated
| IsAdminUser.

Definition has_permission (p : Permission) (request : Request.t) : bool :=
  match p with
  | AllowAny => true
  | IsAuthenticated => is_authenticated (Request.user request)
  | IsAdminUser => is_staff (Request.user request)
  end.

Module APIView.
(** [permission_denied]: a caller who did not authenticate is told so, any
    other caller is refused. *)
Definition permission_denied {B} (request : Request.t) : Result B :=
  if is_authenticated (Request.user request)
  then Raise PermissionDenied
  else Raise NotAuthenticated.

(** [check_permissions]: the first permission that refuses ends the
    request. *)
Fixpoint check_permissions (permissions : list Permission) (request : Request.t)
  : Result unit :=
  match permissions with
  | [] => Ok tt
  | p :: rest =>
      if has_permission p request
      then check_permissions rest request
      else permission_denied request
  end.

(** [dispatch]: the permission check of [initial], then the handler. *)
Definition dispatch (get_permissions : View.t → list Permission)
    (handler : View.t → M Response.t) (self : View.t) : M Response.t :=
  lift (check_permissions (get_permissions self) (View.request self));;;
  handler self.

(** The default [get_permissions]: one instance of each class in
    [permission_classes]. *)
Definition get_permissions (permission_classes : list Permission)
    (self : View.t) : list Permission :=
  permission_classes.
End APIView.

(** ** rest_framework: the default retrieve-and-delete of a model viewset *)

Module ModelViewSet.
Section Generic.
Context {A : Type}.
(** The model behind the viewset: its primary key, its table, the removal
    of one row, and the coercion the key field applies to a lookup value
    ([None] where Python raises [ValueError]). *)
Variable pk : A → Z.
Variable objects : DB → list A.
Variable delete : A → DB → DB.
Variable to_python : string → option Z.
(** The viewset's filter backends and object-level permissions. *)
Variable filter_queryset : Request.t → list A → list A.
Variable has_object_permission : Request.t → A → bool.

(** [get_object_or_404(queryset, pk=value)]: a value the field rejects and
    a missing row are both [Http404]. *)
Definition get_object_or_404 (qs : list A) (value : string) : Result A :=
  match to_python value with
  | None => Raise Http404
  | Some k =>
      match QuerySet.get (filter (λ x, pk x = k) qs) with
      | Raise DoesNotExist => Raise Http404
      | r => r
      end
  end.

Definition get_object (self : View.t) : M A :=
  queryset <- gets (λ db, filter_queryset (View.request self) (objects db));;
  match View.kwargs self !! "pk" with
  | None => raise AssertionError
  | Some value =>
      obj <- lift (get_object_or_404 queryset value);;
      if has_object_permission (View.request self) obj
      then ret obj
      else lift (APIView.permission_denied (View.request self))
  end.

Definition perform_destroy (instance : A) : M unit :=
  modify (delete instance).

Definition destroy (self : View.t) : M Response.t :=
  instance <- get_object self;;
  perform_destroy instance;;;
  ret {| Response.data := JNull; Response.status := HTTP_204_NO_CONTENT |}.
End Generic.
End ModelViewSet.

(** [instance.delete()] takes the instance's row out of its table.  (What
    happens to rows of other tables that point at it is decided by the
    [on_delete] options of the models, which the views do not state.) *)
Definition delete_product (instance : Product.t) (db : DB) : DB :=
  {| collections := collections db;
     products := filter (λ x, Product.id x ≠ Product.id instance) (products db);
     reviews := reviews db;
     cart_items := cart_items db;
     customers := customers db;
     orders := orders db;
     order_items := order_items db |}.

Definition delete_collection (instance : Collection.t) (db : DB) : DB :=
  {| collections :=
       filter (λ x, Collection.id x ≠ Collection.id instance) (collections db);
     products := products db;
     reviews := reviews db;
     cart_items := cart_items db;
     customers := customers db;
     orders := orders db;
     order_items := order_items db |}.

(** A lookup value that the key field cannot convert raises [ValueError]
    when the filter is built. *)
Definition get_prep_value (to_python : string → option Z) (value : string)
  : Result Z :=
  match to_python value with
  | Some k => Ok k
  | None => Raise ValueError
  end.

(** ** ProductViewSet *)

Module ProductViewSet.
Section Handlers.
(** Coercion of the product key, the viewset's filter backends
    ([DjangoFilterBackend] with [ProductFilter], [SearchFilter],
    [OrderingFilter]) and the object-level part of [IsAdminOrReadOnly]. *)
Variable to_python : string → option Z.
Variable filter_queryset : Request.t → list Product.t → list Product.t.
Variable has_object_permission : Request.t → Product.t → bool.

Definition conflict : Response.t :=
  {| Response.data :=
       JDict [("error",
               JStr "Can't delete products as it contains one or more order items.")];
     Response.status := HTTP_405_METHOD_NOT_ALLOWED |}.

Definition super_destroy : View.t → M Response.t :=
  ModelViewSet.destroy Product.id products delete_product to_python
    filter_queryset has_object_permission.

Definition destroy (self : View.t) : M Response.t :=
  pk <- lift (getitem (View.kwargs self) "pk");;
  product_id <- lift (get_prep_value to_python pk);;
  n <- query (λ db,
         QuerySet.count []
           (filter (λ oi, OrderItem.product_id oi = product_id) (order_items db)));;
  if 0 <? n then ret conflict else super_destroy self.
End Handlers.
End ProductViewSet.

(** ** CollectionViewSet *)

Module CollectionViewSet.
Section Handlers.
Variable to_python : string → option Z.
Variable filter_queryset : Request.t → list Collection.t → list Collection.t.
Variable has_object_permission : Request.t → Collection.t → bool.

Definition conflict : Response.t :=
  {| Response.data :=
       JDict [("error",
               JStr "Can't delete collection as it contains one or more products.")];
     Response.status := HTTP_405_METHOD_NOT_ALLOWED |}.

Definition super_destroy : View.t → M Response.t :=
  ModelViewSet.destroy Collection.id collections delete_collection to_python
    filter_queryset has_object_permission.

(** The guard calls the manager's [count] with the positional argument
    ["products"]. *)
Definition destroy (self : View.t) : M Response.t :=
  n <- query (λ db, QuerySet.count [JStr "products"] (collections db));;
  if 0 <? n then ret conflict else super_destroy self.
End Handlers.
End CollectionViewSet.

(** The serializer classes the viewsets choose between. *)
Inductive SerializerClass : Type :=
| AddCartItemSerializer
| CartItemSerializer
| UpdateCartItemSerializer
| CreateOrderSerializer
| OrderSerializer
| UpdateOrderSerializer.

(** ** ReviewViewSet *)

Module ReviewViewSet.
Section Handlers.
Variable to_python : string → option Z.

Definition get_queryset (self : View.t) : M (list Review.t) :=
  product_pk <- lift (getitem (View.kwargs self) "product_pk");;
  product_id <- lift (get_prep_value to_python product_pk);;
  gets (λ db, filter (λ r, Review.product_id r = product_id) (reviews db)).
End Handlers.
End ReviewViewSet.

(** ** CartItemViewSet *)

Module CartItemViewSet.
Definition http_method_names : list string := ["get"; "post"; "patch"; "delete"].

Definition get_serializer_class (self : View.t) : SerializerClass :=
  if decide (Request.method (View.request self) = "POST")
  then AddCartItemSerializer
  else if decide (Request.method (View.request self) = "PATCH")
  then UpdateCartItemSerializer
  else CartItemSerializer.

Section Handlers.
Variable to_python : string → option Z.

(** [select_related("product")] joins the product in; the rows are those
    of the filter. *)
Definition get_queryset (self : View.t) : M (list CartItem.t) :=
  cart_pk <- lift (getitem (View.kwargs self) "cart_pk");;
  cart_id <- lift (get_prep_value to_python cart_pk);;
  gets (λ db, filter (λ i, CartItem.cart_id i = cart_id) (cart_items db)).
End Handlers.
End CartItemViewSet.

(** [Customer.objects.get(user_id=value)]; the anonymous user's [id] is
    [None], which no customer row matches. *)
Definition get_customer (value : option Z) (db : DB) : Result Customer.t :=
  QuerySet.get (filter (λ c, Some (Customer.user_id c) = value) (customers db)).

(** [instance.save()] on a fetched row: the row with the instance's key is
    overwritten. *)
Definition save_customer (instance : Customer.t) (db : DB) : DB :=
  {| collections := collections db;
     products := products db;
     reviews := reviews db;
     cart_items := cart_items db;
     customers :=
       (λ c, if decide (Customer.id c = Customer.id instance) then instance else c)
         <$> customers db;
     orders := orders db;
     order_items := order_items db |}.

(** ** CustomerViewSet *)

Module CustomerViewSet.
Definition permission_classes : list Permission := [IsAdminUser].

Definition get_permissions (self : View.t) : list Permission :=
  if decide (Request.method (View.request self) = "GET")
  then [AllowAny]
  else [IsAuthenticated].

Definition history (self : View.t) (pk : option string) : M Response.t :=
  ret {| Response.data := JStr "not implemented yet";
         Response.status := HTTP_200_OK |}.

Section Handlers.
(** [CustomerSerializer] (store/serializers.py): the representation of a
    customer, the validation of a payload against an instance, and the
    update that [save] applies to the instance. *)
Variable to_representation : DB → Customer.t → JSON.
Variable run_validation : DB → Customer.t → JSON → Result JSON.
Variable update : Customer.t → JSON → Customer.t.

Definition me (self : View.t) : M Response.t :=
  let request := View.request self in
  customer <- query (get_customer (user_id (Request.user request)));;
  if decide (Request.method request = "GET") then
    data <- gets (λ db, to_representation db customer);;
    ret {| Response.data := data; Response.status := HTTP_200_OK |}
  else if decide (Request.method request = "PUT") then
    validated_data <-
      query (λ db, run_validation db customer (Request.data request));;
    let instance := update customer validated_data in
    modify (save_customer instance);;;
    data <- gets (λ db, to_representation db instance);;
    ret {| Response.data := data; Response.status := HTTP_200_OK |}
  else raise (UnboundLocalError "serializer").
End Handlers.
End CustomerViewSet.

(** ** OrderViewSet *)

Module OrderViewSet.
Definition http_method_names : list string :=
  ["get"; "post"; "patch"; "delete"; "head"; "options"].

Definition get_permissions (self : View.t) : list Permission :=
  if decide (Request.method (View.request self) ∈ ["PATCH"; "DELETE"])
  then [IsAdminUser]
  else [IsAuthenticated].

Definition get_serializer_class (self : View.t) : SerializerClass :=
  if decide (Request.method (View.request self) = "POST")
  then CreateOrderSerializer
  else if decide (Request.method (View.request self) = "PATCH")
  then UpdateOrderSerializer
  else OrderSerializer.

(** A model instance given as the value of a key lookup stands for its
    primary key. *)
Definition get_normalized_value (value : Customer.t) : Z := Customer.id value.

(** [only("id")] defers the other columns; the row found is the same. *)
Definition get_queryset (self : View.t) : M (list Order.t) :=
  let user := Request.user (View.request self) in
  if is_staff user then gets orders
  else
    customer_id <- query (get_customer (user_id user));;
    gets (λ db,
      filter (λ o, Order.customer_id o = get_normalized_value customer_id)
        (orders db)).

Section Handlers.
(** The serializers of store/serializers.py: validation of the checkout
    payload (it reads the database and is given the user's id as context),
    the [save] that builds the order, and the order representation. *)
Variable create_order_run_validation : DB → option Z → JSON → Result JSON.
Variable create_order_save : option Z → JSON → M Order.t.
Variable order_to_representation : DB → Order.t → JSON.

Definition create (self : View.t) : M Response.t :=
  let request := View.request self in
  let user_id := user_id (Request.user request) in
  validated_data <-
    query (λ db, create_order_run_validation db user_id (Request.data request));;
  order <- create_order_save user_id validated_data;;
  data <- gets (λ db, order_to_representation db order);;
  ret {| Response.data := data; Response.status := HTTP_201_CREATED |}.
End Handlers.
End OrderViewSet.

(** ** Concrete requests and databases *)

Module Examples.
(** Decimal keys 1 and 2, as the integer key field reads them. *)
Definition to_python (value : string) : option Z :=
  if decide (value = "1") then Some 1
  else if decide (value = "2") then Some 2
  else None.

(** No filter backend narrows the queryset; no object-level refusal. *)
Definition all_rows {A} (request : Request.t) (qs : list A) : list A := qs.
Definition allow {A} (request : Request.t) (obj : A) : bool := true.

Definition admin : RequestUser := AuthUser {| User.id := 1; User.is_staff := true |}.
Definition alice : RequestUser := AuthUser {| User.id := 7; User.is_staff := false |}.
Definition bob : RequestUser := AuthUser {| User.id := 8; User.is_staff := false |}.

Definition view (method : string) (user : RequestUser) (data : JSON)
    (kwargs : list (string * string)) : View.t :=
  {| View.request :=
       {| Request.method := method; Request.user := user;
          Request.data := data; Request.query_params := [] |};
     View.kwargs := list_to_map kwargs |}.

Definition alice_customer : Customer.t :=
  {| Customer.id := 3; Customer.user_id := 7;
     Customer.fields := JDict [("phone", JStr "555")] |}.
Definition admin_customer : Customer.t :=
  {| Customer.id := 4; Customer.user_id := 1; Customer.fields := JDict [] |}.

(** Collection 1 holds both products, collection 2 is empty; product 1 is
    on an order line, product 2 is not; alice owns order 1. *)
Definition shop : DB :=
  {| collections := [ {| Collection.id := 1 |}; {| Collection.id := 2 |} ];
     products := [ {| Product.id := 1; Product.collection_id := 1 |};
                   {| Product.id := 2; Product.collection_id := 1 |} ];
     reviews := [ {| Review.id := 1; Review.product_id := 1 |};
                  {| Review.id := 2; Review.product_id := 2 |};
                  {| Review.id := 3; Review.product_id := 1 |} ];
     cart_items := [ {| CartItem.id := 1; CartItem.cart_id := 1; CartItem.product_id := 2 |};
                     {| CartItem.id := 2; CartItem.cart_id := 2; CartItem.product_id := 1 |} ];
     customers := [ alice_customer; admin_customer ];
     orders := [ {| Order.id := 1; Order.customer_id := 3 |};
                 {| Order.id := 2; Order.customer_id := 4 |} ];
     order_items := [ {| OrderItem.id := 1; OrderItem.order_id := 1;
                         OrderItem.product_id := 1 |} ] |}.

(** A [CustomerSerializer] whose writable part is the [fields] value. *)
Definition to_representation (db : DB) (c : Customer.t) : JSON :=
  JDict [("id", JInt (Customer.id c)); ("user_id", JInt (Customer.user_id c));
         ("fields", Customer.fields c)].
Definition run_validation (db : DB) (c : Customer.t) (data : JSON) : Result JSON :=
  match data with
  | JDict _ => Ok data
  | _ => Raise (ValidationError (JStr "Invalid data. Expected a dictionary."))
  end.
Definition update (c : Customer.t) (validated_data : JSON) : Customer.t :=
  {| Customer.id := Customer.id c; Customer.user_id := Customer.user_id c;
     Customer.fields := validated_data |}.

(** A checkout that needs a customer for the user and opens order 9. *)
Definition create_order_run_validation (db : DB) (user_id : option Z) (data : JSON)
  : Result JSON :=
  match data with
  | JDict [("cart_id", JStr _)] => Ok data
  | _ => Raise (ValidationError (JStr "cart_id is required."))
  end.
Definition create_order_save (user_id : option Z) (validated_data : JSON)
  : M Order.t :=
  customer <- query (get_customer user_id);;
  let order := {| Order.id := 9; Order.customer_id := Customer.id customer |} in
  modify (λ db,
    {| collections := collections db; products := products db;
       reviews := reviews db; cart_items := cart_items db;
       customers := customers db; orders := orders db ++ [order];
       order_items := order_items db |});;;
  ret order.
Definition order_to_representation (db : DB) (order : Order.t) : JSON :=
  JDict [("id", JInt (Order.id order));
         ("customer", JInt (Order.customer_id order));
         ("items",
          JList ((λ oi, JInt (OrderItem.id oi)) <$>
                 filter (λ oi, OrderItem.order_id oi = Order.id order)
                   (order_items db)))].
End Examples.

(** ** The rest of the request cycle *)

(** [get_serializer_context] of the nested routes: the parent key goes to
    the serializer as the URL gave it. *)
Definition ReviewViewSet_get_serializer_context (self : View.t)
  : Result (gmap string string) :=
  match getitem (View.kwargs self) "product_pk" with
  | Ok product_pk => Ok {[ "product_id" := product_pk ]}
  | Raise e => Raise e
  end.

Definition CartItemViewSet_get_serializer_context (self : View.t)
  : Result (gmap string string) :=
  match getitem (View.kwargs self) "cart_pk" with
  | Ok cart_pk => Ok {[ "cart_id" := cart_pk ]}
  | Raise e => Raise e
  end.

(** [str.lower] and [str.upper] on the ASCII letters that HTTP method names
    are made of. *)
Definition lower_ascii (a : Ascii.ascii) : Ascii.ascii :=
  let n := Ascii.N_of_ascii a in
  if ((65 <=? n) && (n <=? 90))%N then Ascii.ascii_of_N (n + 32) else a.

Definition upper_ascii (a : Ascii.ascii) : Ascii.ascii :=
  let n := Ascii.N_of_ascii a in
  if ((97 <=? n) && (n <=? 122))%N then Ascii.ascii_of_N (n - 32) else a.

Fixpoint lower (s : string) : string :=
  match s with
  | EmptyString => EmptyString
  | String a rest => String (lower_ascii a) (lower rest)
  end.

Fixpoint upper (s : string) : string :=
  match s with
  | EmptyString => EmptyString
  | String a rest => String (upper_ascii a) (upper rest)
  end.

(** The test [dispatch] makes before it looks for a handler:
    [request.method.lower() in self.http_method_names]. *)
Definition method_allowed (http_method_names : list string) (request : Request.t)
  : bool :=
  bool_decide (lower (Request.method request) ∈ http_method_names).

(** Views whose queryset comes from a [get_queryset] method: the object of a
    detail route is looked up in that queryset. *)
Module GenericAPIView.
Section Generic.
Context {A : Type}.
Variable pk : A → Z.
Variable get_queryset : View.t → M (list A).
Variable to_python : string → option Z.
Variable filter_queryset : Request.t → list A → list A.
Variable has_object_permission : Request.t → A → bool.

Definition get_object (self : View.t) : M A :=
  qs <- get_queryset self;;
  let queryset := filter_queryset (View.request self) qs in
  match View.kwargs self !! "pk" with
  | None => raise AssertionError
  | Some value =>
      obj <- lift (ModelViewSet.get_object_or_404 pk to_python queryset value);;
      if has_object_permission (View.request self) obj
      then ret obj
      else lift (APIView.permission_denied (View.request self))
  end.

(** [RetrieveModelMixin.retrieve] *)
Definition retrieve (to_representation : DB → A → JSON) (self : View.t)
  : M Response.t :=
  instance <- get_object self;;
  data <- gets (λ db, to_representation db instance);;
  ret {| Response.data := data; Response.status := HTTP_200_OK |}.

(** [DestroyModelMixin.destroy] *)
Definition destroy (delete : A → DB → DB) (self : View.t) : M Response.t :=
  instance <- get_object self;;
  modify (delete instance);;;
  ret {| Response.data := JNull; Response.status := HTTP_204_NO_CONTENT |}.
End Generic.
End GenericAPIView.

Definition delete_cart_item (instance : CartItem.t) (db : DB) : DB :=
  {| collections := collections db;
     products := products db;
     reviews := reviews db;
     cart_items :=
       filter (λ x, CartItem.id x ≠ CartItem.id instance) (cart_items db);
     customers := customers db;
     orders := orders db;
     order_items := order_items db |}.

(** The detail routes of the cart items and of the orders. *)
Definition CartItemViewSet_destroy (cart_to_python item_to_python : string → option Z)
    (filter_queryset : Request.t → list CartItem.t → list CartItem.t)
    (has_object_permission : Request.t → CartItem.t → bool)
  : View.t → M Response.t :=
  GenericAPIView.destroy CartItem.id (CartItemViewSet.get_queryset cart_to_python)
    item_to_python filter_queryset has_object_permission delete_cart_item.

Definition OrderViewSet_get_object (to_python : string → option Z)
    (filter_queryset : Request.t → list Order.t → list Order.t)
    (has_object_permission : Request.t → Order.t → bool)
  : View.t → M Order.t :=
  GenericAPIView.get_object Order.id OrderViewSet.get_queryset to_python
    filter_queryset has_object_permission.

(** Every order line points at a product that exists. *)
Definition order_lines_valid (db : DB) : Prop :=
  ∀ oi, oi ∈ order_items db →
    ∃ p, p ∈ products db ∧ Product.id p = OrderItem.product_id oi.

(** * Properties *)

(** Unfolds the sequencing of a handler down to the database it threads. *)
Ltac run_handler :=
  unfold bind, lift, query, gets, modify, ret, raise, getitem, get_prep_value,
    QuerySet.count; cbv beta.

(** ** Facts about querysets *)

Section QuerySetFacts.
Context {A : Type} (P : A → Prop) `{!∀ x, Decision (P x)}.

Lemma filter_empty_iff (l : list A) :
  filter P l = [] ↔ ∀ x, x ∈ l → ¬ P x.
Proof.
  induction l as [|a l IH]; simpl.
  - split; [intros _ x Hx; inversion Hx | done].
  - rewrite filter_cons. destruct (decide (P a)) as [Ha|Ha].
    + split; [discriminate|]. intros Hall. exfalso. apply (Hall a); [left|done].
    + rewrite IH. split.
      * intros Hall x Hx. apply elem_of_cons in Hx as [->|Hx]; auto.
      * intros Hall x Hx. apply Hall. by right.
Qed.

Lemma count_filter_positive (l : list A) :
  (0 <? Z.of_nat (length (filter P l))) = true ↔ ∃ x, x ∈ l ∧ P x.
Proof.
  rewrite Z.ltb_lt. split.
  - destruct (filter P l) as [|x r] eqn:E; simpl; [lia|]. intros _.
    assert (Hx : x ∈ filter P l) by (rewrite E; left).
    apply list_elem_of_filter in Hx as [HP Hin]. eauto.
  - intros (x & Hin & HP).
    assert (Hx : x ∈ filter P l) by (apply list_elem_of_filter; done).
    destruct (filter P l); [inversion Hx | simpl; lia].
Qed.

Lemma count_filter_zero (l : list A) :
  (∀ x, x ∈ l → ¬ P x) → (0 <? Z.of_nat (length (filter P l))) = false.
Proof.
  intros Hall. apply filter_empty_iff in Hall. by rewrite Hall.
Qed.
End QuerySetFacts.

(** ** Deleting a collection *)

(** The guard never yields a count: whatever the tables hold, the handler
    ends in the [TypeError] of the [count] call and the database is as it
    was. *)
Lemma collection_destroy_raises to_python filter_queryset has_object_permission
    (self : View.t) (db : DB) :
  CollectionViewSet.destroy to_python filter_queryset has_object_permission self db
  = (Raise TypeError, db).
Proof. reflexivity. Qed.

(** C1.  A DELETE of collection 2, which no product references, does not
    succeed: the handler raises [TypeError], the caller gets status 500 and
    collection 2 is still in the table, although the framework's own delete
    would have answered 204 and removed it.  A DELETE of collection 1, which
    holds products, ends in the same server error, not in a client error. *)
Theorem collection_destroy_unreferenced :
  let delete pk := Examples.view "DELETE" Examples.admin JNull [("pk", pk)] in
  let destroy :=
    CollectionViewSet.destroy Examples.to_python Examples.all_rows Examples.allow in
  let super_destroy :=
    CollectionViewSet.super_destroy Examples.to_python Examples.all_rows
      Examples.allow in
  filter (λ p, Product.collection_id p = 2) (products Examples.shop) = []
  ∧ destroy (delete "2") Examples.shop = (Raise TypeError, Examples.shop)
  ∧ http_status (destroy (delete "2") Examples.shop).1 = 500
  ∧ {| Collection.id := 2 |} ∈ collections (destroy (delete "2") Examples.shop).2
  ∧ (super_destroy (delete "2") Examples.shop).1
    = Ok {| Response.data := JNull; Response.status := 204 |}
  ∧ collections (super_destroy (delete "2") Examples.shop).2
    = [ {| Collection.id := 1 |} ]
  ∧ is_client_error (http_status (destroy (delete "1") Examples.shop).1) = false.
Proof.
  cbv zeta. rewrite !collection_destroy_raises.
  split; [reflexivity|]. split; [reflexivity|]. split; [reflexivity|].
  split; [simpl; set_solver|].
  split; [vm_compute; reflexivity|]. split; [vm_compute; reflexivity|].
  reflexivity.
Qed.

(** ** Deleting a product *)

Section ProductDestroy.
Variable to_python : string → option Z.
Variable filter_queryset : Request.t → list Product.t → list Product.t.
Variable has_object_permission : Request.t → Product.t → bool.

Lemma product_destroy_rejected (self : View.t) (db : DB) (value : string) (p : Z) :
  View.kwargs self !! "pk" = Some value →
  to_python value = Some p →
  (∃ oi, oi ∈ order_items db ∧ OrderItem.product_id oi = p) →
  ProductViewSet.destroy to_python filter_queryset has_object_permission self db
  = (Ok ProductViewSet.conflict, db).
Proof.
  intros Hkw Hpy Hex.
  apply (count_filter_positive (λ oi, OrderItem.product_id oi = p)) in Hex.
  unfold ProductViewSet.destroy, bind, lift, query, getitem,
    get_prep_value, QuerySet.count.
  rewrite Hkw, Hpy, Hex. reflexivity.
Qed.

Lemma product_destroy_deletes (self : View.t) (db : DB) (value : string) (p : Z)
    (instance : Product.t) :
  View.kwargs self !! "pk" = Some value →
  to_python value = Some p →
  (∀ oi, oi ∈ order_items db → OrderItem.product_id oi ≠ p) →
  filter (λ x, Product.id x = p) (filter_queryset (View.request self) (products db))
    = [instance] →
  has_object_permission (View.request self) instance = true →
  ProductViewSet.destroy to_python filter_queryset has_object_permission self db
  = (Ok {| Response.data := JNull; Response.status := HTTP_204_NO_CONTENT |},
     delete_product instance db)
  ∧ Product.id instance = p.
Proof.
  intros Hkw Hpy Hno Hget Hperm.
  apply (count_filter_zero (λ oi, OrderItem.product_id oi = p)) in Hno.
  split.
  - unfold ProductViewSet.destroy, ProductViewSet.super_destroy,
      ModelViewSet.destroy, ModelViewSet.get_object, ModelViewSet.get_object_or_404,
      ModelViewSet.perform_destroy, bind, lift, query, gets, modify, ret, getitem,
      get_prep_value, QuerySet.count.
    rewrite Hkw, Hpy, Hno, Hget. simpl. rewrite Hperm. reflexivity.
  - assert (Hin : instance ∈ filter (λ x, Product.id x = p)
                    (filter_queryset (View.request self) (products db)))
      by (rewrite Hget; left).
    by apply list_elem_of_filter in Hin as [? _].
Qed.
End ProductDestroy.

(** C2.  A DELETE of product [p] (the key in the URL names a product the
    request can see and may act on): with an order item that references [p]
    the answer is the error body with status 405, a client error, and the
    database is untouched; with none, the answer is 204 and the products left
    are exactly the others. *)
Theorem product_destroy_guard to_python filter_queryset has_object_permission
    (self : View.t) (db : DB) (value : string) (p : Z) (instance : Product.t) :
  View.kwargs self !! "pk" = Some value →
  to_python value = Some p →
  filter (λ x, Product.id x = p) (filter_queryset (View.request self) (products db))
    = [instance] →
  has_object_permission (View.request self) instance = true →
  let destroy :=
    ProductViewSet.destroy to_python filter_queryset has_object_permission in
  ((∃ oi, oi ∈ order_items db ∧ OrderItem.product_id oi = p) →
     destroy self db
     = (Ok {| Response.data :=
                JDict [("error",
                  JStr "Can't delete products as it contains one or more order items.")];
              Response.status := 405 |}, db)
     ∧ is_client_error (http_status (destroy self db).1) = true)
  ∧ ((∀ oi, oi ∈ order_items db → OrderItem.product_id oi ≠ p) →
     (destroy self db).1 = Ok {| Response.data := JNull; Response.status := 204 |}
     ∧ ∀ x, x ∈ products (destroy self db).2 ↔ x ∈ products db ∧ Product.id x ≠ p).
Proof.
  intros Hkw Hpy Hget Hperm destroy. split.
  - intros Hex. unfold destroy.
    rewrite (product_destroy_rejected _ _ _ self db value p Hkw Hpy Hex).
    split; reflexivity.
  - intros Hno. unfold destroy.
    destruct (product_destroy_deletes _ _ _ self db value p instance
                Hkw Hpy Hno Hget Hperm) as [-> Hid].
    split; [reflexivity|]. intros x. simpl.
    rewrite list_elem_of_filter, Hid. tauto.
Qed.

(** Product 1 is on an order line and stays; product 2 is on none and goes. *)
Lemma product_destroy_guard_witness :
  let destroy :=
    ProductViewSet.destroy Examples.to_python Examples.all_rows Examples.allow in
  let delete pk := Examples.view "DELETE" Examples.admin JNull [("pk", pk)] in
  (destroy (delete "1") Examples.shop
   = (Ok {| Response.data :=
              JDict [("error",
                JStr "Can't delete products as it contains one or more order items.")];
            Response.status := 405 |}, Examples.shop))
  ∧ (destroy (delete "2") Examples.shop).1
    = Ok {| Response.data := JNull; Response.status := 204 |}
  ∧ products (destroy (delete "2") Examples.shop).2
    = [ {| Product.id := 1; Product.collection_id := 1 |} ].
Proof.
  cbv zeta. split; [|split].
  - refine (proj1 (proj1 (product_destroy_guard Examples.to_python Examples.all_rows
      Examples.allow (Examples.view "DELETE" Examples.admin JNull [("pk", "1")])
      Examples.shop "1" 1 {| Product.id := 1; Product.collection_id := 1 |}
      _ _ _ _) _)).
    + vm_compute; reflexivity.
    + reflexivity.
    + vm_compute; reflexivity.
    + reflexivity.
    + exists {| OrderItem.id := 1; OrderItem.order_id := 1; OrderItem.product_id := 1 |}.
      split; [left | reflexivity].
  - refine (proj1 (proj2 (product_destroy_guard Examples.to_python Examples.all_rows
      Examples.allow (Examples.view "DELETE" Examples.admin JNull [("pk", "2")])
      Examples.shop "2" 2 {| Product.id := 2; Product.collection_id := 1 |}
      _ _ _ _) _)).
    + vm_compute; reflexivity.
    + reflexivity.
    + vm_compute; reflexivity.
    + reflexivity.
    + intros oi Hoi. simpl in Hoi. apply list_elem_of_singleton in Hoi as ->.
      simpl. lia.
  - vm_compute; reflexivity.
Defined.

(** ** Listing orders *)

Lemma get_customer_unique (value : option Z) (db : DB) (c : Customer.t) :
  filter (λ c, Some (Customer.user_id c) = value) (customers db) = [c] →
  get_customer value db = Ok c.
Proof. intros H. unfold get_customer. by rewrite H. Qed.

Lemma get_customer_missing (value : option Z) (db : DB) :
  (∀ c, c ∈ customers db → Some (Customer.user_id c) ≠ value) →
  get_customer value db = Raise DoesNotExist.
Proof.
  intros H. unfold get_customer.
  apply (filter_empty_iff (λ c, Some (Customer.user_id c) = value)) in H.
  by rewrite H.
Qed.

(** C3.  A staff user's queryset is the whole orders table.  For a user who
    is not staff and whose customer record is [c], the queryset holds
    exactly the orders whose customer is [c]. *)
Theorem order_queryset_scope (self : View.t) (db : DB) :
  let user := Request.user (View.request self) in
  (is_staff user = true →
     OrderViewSet.get_queryset self db = (Ok (orders db), db))
  ∧ (is_staff user = false →
     ∀ c, filter (λ c, Some (Customer.user_id c) = user_id user) (customers db) = [c] →
       ∃ qs, OrderViewSet.get_queryset self db = (Ok qs, db)
         ∧ ∀ o, o ∈ qs ↔ o ∈ orders db ∧ Order.customer_id o = Customer.id c).
Proof.
  intros user. unfold OrderViewSet.get_queryset. fold user. split.
  - intros ->. reflexivity.
  - intros -> c Hc. apply get_customer_unique in Hc.
    run_handler. rewrite Hc. eexists. split; [reflexivity|].
    intros o. rewrite list_elem_of_filter.
    unfold OrderViewSet.get_normalized_value. tauto.
Qed.

(** The staff user sees both orders, alice only her own. *)
Lemma order_queryset_scope_witness :
  OrderViewSet.get_queryset (Examples.view "GET" Examples.admin JNull []) Examples.shop
  = (Ok (orders Examples.shop), Examples.shop)
  ∧ ∃ qs,
      OrderViewSet.get_queryset (Examples.view "GET" Examples.alice JNull [])
        Examples.shop = (Ok qs, Examples.shop)
      ∧ ∀ o, o ∈ qs ↔ o ∈ orders Examples.shop ∧ Order.customer_id o = 3.
Proof.
  split.
  - apply (proj1 (order_queryset_scope
      (Examples.view "GET" Examples.admin JNull []) Examples.shop)).
    reflexivity.
  - apply (proj2 (order_queryset_scope
      (Examples.view "GET" Examples.alice JNull []) Examples.shop)
      eq_refl Examples.alice_customer).
    vm_compute; reflexivity.
Defined.

(** ** Creating an order *)

(** C4.  When the checkout payload validates and [save] yields an order, the
    response has status 201 and its body is the order representation of the
    saved order, computed on the database that [save] left. *)
Theorem order_create_response run_validation save to_representation
    (self : View.t) (db db' : DB) (validated_data : JSON) (order : Order.t) :
  let request := View.request self in
  run_validation db (user_id (Request.user request)) (Request.data request)
    = Ok validated_data →
  save (user_id (Request.user request)) validated_data db = (Ok order, db') →
  OrderViewSet.create run_validation save to_representation self db
  = (Ok {| Response.data := to_representation db' order; Response.status := 201 |},
     db').
Proof.
  intros request Hvalid Hsave.
  unfold OrderViewSet.create. run_handler. fold request.
  rewrite Hvalid, Hsave. reflexivity.
Qed.

(** Alice's checkout opens order 9 and is answered with that order, not with
    the cart id she sent. *)
Lemma order_create_response_witness :
  OrderViewSet.create Examples.create_order_run_validation
    Examples.create_order_save Examples.order_to_representation
    (Examples.view "POST" Examples.alice (JDict [("cart_id", JStr "c1")]) [])
    Examples.shop
  = (Ok {| Response.data :=
             JDict [("id", JInt 9); ("customer", JInt 3); ("items", JList [])];
           Response.status := 201 |},
     (Examples.create_order_save (Some 7) (JDict [("cart_id", JStr "c1")])
        Examples.shop).2).
Proof.
  apply (order_create_response Examples.create_order_run_validation
    Examples.create_order_save Examples.order_to_representation
    (Examples.view "POST" Examples.alice (JDict [("cart_id", JStr "c1")]) [])
    Examples.shop
    (Examples.create_order_save (Some 7) (JDict [("cart_id", JStr "c1")])
       Examples.shop).2
    (JDict [("cart_id", JStr "c1")])
    {| Order.id := 9; Order.customer_id := 3 |}).
  - reflexivity.
  - vm_compute; reflexivity.
Defined.

(** ** Cart items *)

(** C5.  The serializer of the cart-items route is chosen by the method:
    the adding one for POST, the updating one for PATCH, the default one
    for every other method. *)
Theorem cart_item_serializer_class (self : View.t) :
  let method := Request.method (View.request self) in
  (method = "POST" →
     CartItemViewSet.get_serializer_class self = AddCartItemSerializer)
  ∧ (method = "PATCH" →
     CartItemViewSet.get_serializer_class self = UpdateCartItemSerializer)
  ∧ (method ≠ "POST" → method ≠ "PATCH" →
     CartItemViewSet.get_serializer_class self = CartItemSerializer).
Proof.
  intros method. unfold CartItemViewSet.get_serializer_class. fold method.
  split; [|split].
  - intros ->. reflexivity.
  - intros ->. reflexivity.
  - intros H1 H2. by rewrite !decide_False.
Qed.

Lemma cart_item_serializer_class_witness :
  let view method := Examples.view method Examples.alice JNull [("cart_pk", "1")] in
  CartItemViewSet.get_serializer_class (view "POST") = AddCartItemSerializer
  ∧ CartItemViewSet.get_serializer_class (view "PATCH") = UpdateCartItemSerializer
  ∧ CartItemViewSet.get_serializer_class (view "GET") = CartItemSerializer
  ∧ CartItemViewSet.get_serializer_class (view "DELETE") = CartItemSerializer.
Proof.
  cbv zeta. split; [|split; [|split]].
  - apply (proj1 (cart_item_serializer_class _)). reflexivity.
  - apply (proj1 (proj2 (cart_item_serializer_class _))). reflexivity.
  - apply (proj2 (proj2 (cart_item_serializer_class _))); discriminate.
  - apply (proj2 (proj2 (cart_item_serializer_class _))); discriminate.
Defined.

(** ** Querysets of the nested routes *)

(** C6.  On the reviews route the queryset is exactly the reviews whose
    product is the one named by [product_pk] in the URL; on the cart-items
    route it is exactly the items whose cart is the one named by
    [cart_pk]. *)
Theorem nested_queryset_scope product_to_python cart_to_python
    (self : View.t) (db : DB) :
  (∀ value p,
     View.kwargs self !! "product_pk" = Some value →
     product_to_python value = Some p →
     ∃ qs, ReviewViewSet.get_queryset product_to_python self db = (Ok qs, db)
       ∧ ∀ r, r ∈ qs ↔ r ∈ reviews db ∧ Review.product_id r = p)
  ∧ (∀ value c,
     View.kwargs self !! "cart_pk" = Some value →
     cart_to_python value = Some c →
     ∃ qs, CartItemViewSet.get_queryset cart_to_python self db = (Ok qs, db)
       ∧ ∀ i, i ∈ qs ↔ i ∈ cart_items db ∧ CartItem.cart_id i = c).
Proof.
  split; intros value k Hkw Hpy.
  - unfold ReviewViewSet.get_queryset. run_handler.
    rewrite Hkw, Hpy. eexists. split; [reflexivity|].
    intros r. rewrite list_elem_of_filter. tauto.
  - unfold CartItemViewSet.get_queryset. run_handler.
    rewrite Hkw, Hpy. eexists. split; [reflexivity|].
    intros i. rewrite list_elem_of_filter. tauto.
Qed.

Lemma nested_queryset_scope_witness :
  let self := Examples.view "GET" Examples.alice JNull
                [("product_pk", "1"); ("cart_pk", "2")] in
  (∃ qs, ReviewViewSet.get_queryset Examples.to_python self Examples.shop
         = (Ok qs, Examples.shop)
     ∧ ∀ r, r ∈ qs ↔ r ∈ reviews Examples.shop ∧ Review.product_id r = 1)
  ∧ (∃ qs, CartItemViewSet.get_queryset Examples.to_python self Examples.shop
           = (Ok qs, Examples.shop)
     ∧ ∀ i, i ∈ qs ↔ i ∈ cart_items Examples.shop ∧ CartItem.cart_id i = 2).
Proof.
  cbv zeta. split.
  - apply (proj1 (nested_queryset_scope Examples.to_python Examples.to_python
      _ Examples.shop) "1" 1); [vm_compute; reflexivity | reflexivity].
  - apply (proj2 (nested_queryset_scope Examples.to_python Examples.to_python
      _ Examples.shop) "2" 2); [vm_compute; reflexivity | reflexivity].
Defined.

(** ** The customer's own profile *)

(** C7.  For a user whose customer record is [c]: a GET of [me] answers the
    representation of [c], whose [user_id] is the user's id, and changes
    nothing; a PUT whose payload validates overwrites the row of [c] with
    the updated record, leaves every other row as it was, and answers the
    representation of the updated record. *)
Theorem customer_me to_representation run_validation update
    (self : View.t) (db : DB) (c : Customer.t) :
  let request := View.request self in
  let me := CustomerViewSet.me to_representation run_validation update in
  (∀ x v, Customer.id (update x v) = Customer.id x) →
  filter (λ c, Some (Customer.user_id c) = user_id (Request.user request))
    (customers db) = [c] →
  Some (Customer.user_id c) = user_id (Request.user request)
  ∧ (Request.method request = "GET" →
     me self db
     = (Ok {| Response.data := to_representation db c; Response.status := 200 |},
        db))
  ∧ (Request.method request = "PUT" →
     ∀ validated_data,
       run_validation db c (Request.data request) = Ok validated_data →
       let c' := update c validated_data in
       let db' := (me self db).2 in
       (me self db).1
       = Ok {| Response.data := to_representation db' c'; Response.status := 200 |}
       ∧ c' ∈ customers db'
       ∧ customers db'
         = (λ x, if decide (Customer.id x = Customer.id c) then c' else x)
             <$> customers db).
Proof.
  intros request me Hpk Hc.
  assert (Hin : c ∈ filter (λ c, Some (Customer.user_id c)
                                 = user_id (Request.user request)) (customers db))
    by (rewrite Hc; left).
  apply list_elem_of_filter in Hin as [Huser Hin].
  apply get_customer_unique in Hc.
  split; [done|]. split.
  - intros Hm. unfold me, CustomerViewSet.me. run_handler. fold request.
    rewrite Hc, Hm. reflexivity.
  - intros Hm v Hv c' db'.
    assert (Hrun : me self db
                   = (Ok {| Response.data := to_representation (save_customer c' db) c';
                            Response.status := 200 |}, save_customer c' db)).
    { unfold me, CustomerViewSet.me. run_handler. fold request.
      rewrite Hc, Hm, decide_False, decide_True by done.
      cbv beta. rewrite Hv. reflexivity. }
    unfold db'. rewrite Hrun. simpl. split; [reflexivity|].
    assert (Hid : Customer.id c' = Customer.id c) by apply Hpk.
    rewrite Hid. split; [|reflexivity].
    apply list_elem_of_fmap. exists c. by rewrite decide_True.
Qed.

(** Alice reads her profile, then replaces her phone number. *)
Lemma customer_me_witness :
  let me := CustomerViewSet.me Examples.to_representation Examples.run_validation
              Examples.update in
  let payload := JDict [("phone", JStr "777")] in
  me (Examples.view "GET" Examples.alice JNull []) Examples.shop
  = (Ok {| Response.data :=
             JDict [("id", JInt 3); ("user_id", JInt 7);
                    ("fields", JDict [("phone", JStr "555")])];
           Response.status := 200 |}, Examples.shop)
  ∧ (me (Examples.view "PUT" Examples.alice payload []) Examples.shop).1
    = Ok {| Response.data :=
              JDict [("id", JInt 3); ("user_id", JInt 7); ("fields", payload)];
            Response.status := 200 |}
  ∧ customers (me (Examples.view "PUT" Examples.alice payload []) Examples.shop).2
    = [ {| Customer.id := 3; Customer.user_id := 7; Customer.fields := payload |};
        Examples.admin_customer ].
Proof.
  cbv zeta. split; [|split].
  - apply (proj1 (proj2 (customer_me Examples.to_representation
      Examples.run_validation Examples.update
      (Examples.view "GET" Examples.alice JNull []) Examples.shop
      Examples.alice_customer (λ _ _, eq_refl) eq_refl))).
    reflexivity.
  - apply (proj1 (proj2 (proj2 (customer_me Examples.to_representation
      Examples.run_validation Examples.update
      (Examples.view "PUT" Examples.alice (JDict [("phone", JStr "777")]) [])
      Examples.shop Examples.alice_customer (λ _ _, eq_refl) eq_refl))
      eq_refl (JDict [("phone", JStr "777")]) eq_refl)).
  - apply (proj2 (proj2 (proj2 (proj2 (customer_me Examples.to_representation
      Examples.run_validation Examples.update
      (Examples.view "PUT" Examples.alice (JDict [("phone", JStr "777")]) [])
      Examples.shop Examples.alice_customer (λ _ _, eq_refl) eq_refl))
      eq_refl (JDict [("phone", JStr "777")]) eq_refl))).
Defined.

(** C10.  When no customer row carries the id of the authenticated user,
    [me] ends in [DoesNotExist] for every method: the framework's exception
    handler does not take it, the caller gets the server error 500, and no
    row has been created. *)
Theorem customer_me_without_record to_representation run_validation update
    (self : View.t) (db : DB) :
  let user := Request.user (View.request self) in
  let me := CustomerViewSet.me to_representation run_validation update in
  is_authenticated user = true →
  (∀ c, c ∈ customers db → Some (Customer.user_id c) ≠ user_id user) →
  me self db = (Raise DoesNotExist, db)
  ∧ exception_handler DoesNotExist = None
  ∧ is_server_error (http_status (me self db).1) = true
  ∧ is_client_error (http_status (me self db).1) = false.
Proof.
  intros user me _ Hnone. apply get_customer_missing in Hnone.
  assert (Hrun : me self db = (Raise DoesNotExist, db)).
  { unfold me, CustomerViewSet.me. run_handler. fold user. by rewrite Hnone. }
  rewrite Hrun. repeat split.
Qed.

(** Bob is signed in but has no customer row. *)
Lemma customer_me_without_record_witness :
  CustomerViewSet.me Examples.to_representation Examples.run_validation
    Examples.update (Examples.view "GET" Examples.bob JNull []) Examples.shop
  = (Raise DoesNotExist, Examples.shop).
Proof.
  apply (customer_me_without_record Examples.to_representation
    Examples.run_validation Examples.update
    (Examples.view "GET" Examples.bob JNull []) Examples.shop eq_refl).
  intros c Hc. simpl in Hc.
  repeat (apply elem_of_cons in Hc as [->|Hc]; [discriminate|]).
  inversion Hc.
Defined.

(** ** The history action *)

(** C8.  A request to [history] that passes the permission check of the
    viewset is answered with the text [not implemented yet], whatever its
    body, its method and the key in its URL, and the database is as
    before. *)
Theorem customer_history_placeholder (self : View.t) (pk : option string) (db : DB) :
  APIView.check_permissions (CustomerViewSet.get_permissions self) (View.request self)
    = Ok tt →
  APIView.dispatch CustomerViewSet.get_permissions
    (λ self, CustomerViewSet.history self pk) self db
  = (Ok {| Response.data := JStr "not implemented yet"; Response.status := 200 |}, db).
Proof.
  intros Hperm. unfold APIView.dispatch. run_handler. rewrite Hperm. reflexivity.
Qed.

Lemma customer_history_placeholder_witness :
  APIView.dispatch CustomerViewSet.get_permissions
    (λ self, CustomerViewSet.history self (Some "3"))
    (Examples.view "GET" Examples.alice (JStr "anything") [("pk", "3")])
    Examples.shop
  = (Ok {| Response.data := JStr "not implemented yet"; Response.status := 200 |},
     Examples.shop).
Proof.
  apply (customer_history_placeholder
    (Examples.view "GET" Examples.alice (JStr "anything") [("pk", "3")])
    (Some "3") Examples.shop).
  reflexivity.
Defined.

(** ** Permissions of the customer endpoints *)

(** C9.  On the customer endpoints a GET passes the permission check for
    every caller, signed in or not; any other method passes exactly when
    the caller is authenticated, staff or not.  The class-level list, which
    asks for a staff user, is not consulted. *)
Theorem customer_permissions (self : View.t) :
  let request := View.request self in
  let check := APIView.check_permissions (CustomerViewSet.get_permissions self) in
  (Request.method request = "GET" →
     CustomerViewSet.get_permissions self = [AllowAny] ∧ check request = Ok tt)
  ∧ (Request.method request ≠ "GET" →
     CustomerViewSet.get_permissions self = [IsAuthenticated]
     ∧ (check request = Ok tt ↔ is_authenticated (Request.user request) = true)).
Proof.
  intros request check. unfold check, CustomerViewSet.get_permissions. fold request.
  split.
  - intros ->. split; reflexivity.
  - intros Hm. rewrite decide_False by done. split; [reflexivity|].
    simpl. fold request. unfold APIView.permission_denied.
    destruct (is_authenticated (Request.user request)); split; done.
Qed.

(** An anonymous GET passes; alice, who is not staff, may POST; an anonymous
    POST is refused; the class-level list would have refused alice. *)
Lemma customer_permissions_witness :
  let check self :=
    APIView.check_permissions (CustomerViewSet.get_permissions self)
      (View.request self) in
  check (Examples.view "GET" AnonymousUser JNull []) = Ok tt
  ∧ check (Examples.view "POST" Examples.alice JNull []) = Ok tt
  ∧ check (Examples.view "POST" AnonymousUser JNull []) ≠ Ok tt
  ∧ APIView.check_permissions
      (APIView.get_permissions CustomerViewSet.permission_classes
         (Examples.view "POST" Examples.alice JNull []))
      (View.request (Examples.view "POST" Examples.alice JNull []))
    = Raise PermissionDenied.
Proof.
  cbv zeta. split; [|split; [|split]].
  - apply (proj1 (customer_permissions _)). reflexivity.
  - apply (proj2 (proj2 (customer_permissions
      (Examples.view "POST" Examples.alice JNull [])) ltac:(discriminate))).
    reflexivity.
  - intros H.
    apply (proj2 (proj2 (customer_permissions
      (Examples.view "POST" AnonymousUser JNull [])) ltac:(discriminate))) in H.
    discriminate H.
  - reflexivity.
Defined.

(** ** More on deleting products and collections *)

Section DestroyCases.
Variable to_python : string → option Z.
Variable filter_queryset : Request.t → list Product.t → list Product.t.
Variable has_object_permission : Request.t → Product.t → bool.

(** Every run of the product [destroy] is of one of two kinds: the database
    is returned as it came and the answer is not the 204 of a deletion, or
    an instance with the key of the URL, which no order line references, has
    been deleted. *)
Lemma product_destroy_cases (self : View.t) (db : DB) :
  (∃ r, ProductViewSet.destroy to_python filter_queryset has_object_permission
          self db = (r, db)
        ∧ r ≠ Ok {| Response.data := JNull; Response.status := 204 |})
  ∨ (∃ instance,
       ProductViewSet.destroy to_python filter_queryset has_object_permission
         self db
       = (Ok {| Response.data := JNull; Response.status := 204 |},
          delete_product instance db)
       ∧ ∀ oi, oi ∈ order_items db →
           OrderItem.product_id oi ≠ Product.id instance).
Proof.
  unfold ProductViewSet.destroy, ProductViewSet.super_destroy,
    ModelViewSet.destroy, ModelViewSet.get_object, ModelViewSet.get_object_or_404,
    ModelViewSet.perform_destroy.
  run_handler.
  destruct (View.kwargs self !! "pk") as [value|]; [|left; eexists; done].
  destruct (to_python value) as [p|]; [|left; eexists; done].
  destruct (0 <? Z.of_nat (length (filter
              (λ oi, OrderItem.product_id oi = p) (order_items db)))) eqn:Hn;
    [left; eexists; done|].
  destruct (filter (λ x, Product.id x = p)
              (filter_queryset (View.request self) (products db)))
    as [|instance [|? ?]] eqn:Hget; simpl; [left; eexists; done| |left; eexists; done].
  destruct (has_object_permission (View.request self) instance).
  - right. exists instance. split; [reflexivity|].
    assert (Hin : instance ∈ filter (λ x, Product.id x = p)
                    (filter_queryset (View.request self) (products db)))
      by (rewrite Hget; left).
    apply list_elem_of_filter in Hin as [Hid _]. subst p.
    intros oi Hoi Heq.
    assert (Hpos : (0 <? Z.of_nat (length (filter
              (λ oi, OrderItem.product_id oi = Product.id instance)
              (order_items db)))) = true)
      by (apply (count_filter_positive
                   (λ oi, OrderItem.product_id oi = Product.id instance));
          exists oi; done).
    congruence.
  - left. unfold APIView.permission_denied.
    destruct (is_authenticated _); eexists; done.
Qed.
End DestroyCases.

(** X1.  A key in the URL that the product key field cannot read makes the
    product [destroy] end in [ValueError], a server error, with the database
    untouched; the framework's own delete answers such a key with 404. *)
Theorem product_destroy_unreadable_key to_python filter_queryset
    has_object_permission (self : View.t) (db : DB) (value : string) :
  View.kwargs self !! "pk" = Some value →
  to_python value = None →
  ProductViewSet.destroy to_python filter_queryset has_object_permission self db
  = (Raise ValueError, db)
  ∧ http_status (Raise ValueError) = 500
  ∧ ProductViewSet.super_destroy to_python filter_queryset has_object_permission
      self db = (Raise Http404, db).
Proof.
  intros Hkw Hpy. split; [|split; [reflexivity|]].
  - unfold ProductViewSet.destroy. run_handler. by rewrite Hkw, Hpy.
  - unfold ProductViewSet.super_destroy, ModelViewSet.destroy,
      ModelViewSet.get_object, ModelViewSet.get_object_or_404.
    run_handler. by rewrite Hkw, Hpy.
Qed.

Lemma product_destroy_unreadable_key_witness :
  ProductViewSet.destroy Examples.to_python Examples.all_rows Examples.allow
    (Examples.view "DELETE" Examples.admin JNull [("pk", "abc")]) Examples.shop
  = (Raise ValueError, Examples.shop).
Proof.
  apply (product_destroy_unreadable_key Examples.to_python Examples.all_rows
    Examples.allow (Examples.view "DELETE" Examples.admin JNull [("pk", "abc")])
    Examples.shop "abc").
  - vm_compute; reflexivity.
  - reflexivity.
Defined.

Lemma product_destroy_not_found to_python filter_queryset has_object_permission
    (self : View.t) (db : DB) (value : string) (p : Z) :
  View.kwargs self !! "pk" = Some value →
  to_python value = Some p →
  (∀ oi, oi ∈ order_items db → OrderItem.product_id oi ≠ p) →
  (∀ x, x ∈ filter_queryset (View.request self) (products db) → Product.id x ≠ p) →
  ProductViewSet.destroy to_python filter_queryset has_object_permission self db
  = (Raise Http404, db).
Proof.
  intros Hkw Hpy Hno Hmiss.
  apply (count_filter_zero (λ oi, OrderItem.product_id oi = p)) in Hno.
  apply (filter_empty_iff (λ x, Product.id x = p)) in Hmiss.
  unfold ProductViewSet.destroy, ProductViewSet.super_destroy,
    ModelViewSet.destroy, ModelViewSet.get_object, ModelViewSet.get_object_or_404.
  run_handler. by rewrite Hkw, Hpy, Hno, Hmiss.
Qed.

(** X2.  When the key of the URL is on no order line and names no product of
    the request's queryset, the product [destroy] answers 404 and deletes
    nothing. *)
Theorem product_destroy_missing to_python filter_queryset has_object_permission
    (self : View.t) (db : DB) (value : string) (p : Z) :
  View.kwargs self !! "pk" = Some value →
  to_python value = Some p →
  (∀ oi, oi ∈ order_items db → OrderItem.product_id oi ≠ p) →
  (∀ x, x ∈ filter_queryset (View.request self) (products db) → Product.id x ≠ p) →
  ProductViewSet.destroy to_python filter_queryset has_object_permission self db
  = (Raise Http404, db)
  ∧ http_status (Raise Http404) = 404.
Proof.
  intros Hkw Hpy Hno Hmiss. split; [|reflexivity].
  by apply (product_destroy_not_found _ _ _ self db value p).
Qed.

(** Product 2 deleted twice: the second request finds nothing. *)
Lemma product_destroy_missing_witness :
  let destroy :=
    ProductViewSet.destroy Examples.to_python Examples.all_rows Examples.allow
      (Examples.view "DELETE" Examples.admin JNull [("pk", "2")]) in
  destroy (destroy Examples.shop).2 = (Raise Http404, (destroy Examples.shop).2).
Proof.
  cbv zeta.
  apply (product_destroy_missing Examples.to_python Examples.all_rows
    Examples.allow (Examples.view "DELETE" Examples.admin JNull [("pk", "2")])
    _ "2" 2).
  - vm_compute; reflexivity.
  - reflexivity.
  - intros oi Hoi. vm_compute in Hoi.
    apply list_elem_of_singleton in Hoi as ->. simpl. lia.
  - intros x Hx. vm_compute in Hx.
    apply list_elem_of_singleton in Hx as ->. simpl. lia.
Defined.


(** X4.  The guard keeps the order lines sound: if every order line points
    at an existing product before the product [destroy], so it does
    afterwards, whatever the request was. *)
Theorem product_destroy_keeps_order_lines to_python filter_queryset
    has_object_permission (self : View.t) (db : DB) :
  order_lines_valid db →
  order_lines_valid
    (ProductViewSet.destroy to_python filter_queryset has_object_permission
       self db).2.
Proof.
  intros Hvalid.
  destruct (product_destroy_cases to_python filter_queryset has_object_permission
              self db) as [(r & -> & Hr)|(instance & -> & Hno)]; simpl; [done|].
  intros oi Hoi. simpl in Hoi.
  destruct (Hvalid oi Hoi) as (p & Hp & Hid).
  exists p. split; [|done]. simpl. apply list_elem_of_filter. split; [|done].
  rewrite Hid. by apply Hno.
Qed.

Lemma order_lines_valid_shop : order_lines_valid Examples.shop.
Proof.
  intros oi Hoi. simpl in Hoi. apply list_elem_of_singleton in Hoi as ->.
  exists {| Product.id := 1; Product.collection_id := 1 |}.
  split; [left | reflexivity].
Defined.

Lemma product_destroy_keeps_order_lines_witness :
  order_lines_valid
    (ProductViewSet.destroy Examples.to_python Examples.all_rows Examples.allow
       (Examples.view "DELETE" Examples.admin JNull [("pk", "2")])
       Examples.shop).2.
Proof.
  apply (product_destroy_keeps_order_lines Examples.to_python Examples.all_rows
    Examples.allow (Examples.view "DELETE" Examples.admin JNull [("pk", "2")])
    Examples.shop).
  exact order_lines_valid_shop.
Defined.

(** X5.  The collection [destroy] never deletes and never answers: for
    every request and database it ends in an uncaught exception, status
    500, and returns the database as it came. *)
Theorem collection_destroy_never_deletes to_python filter_queryset
    has_object_permission (self : View.t) (db : DB) :
  let run :=
    CollectionViewSet.destroy to_python filter_queryset has_object_permission
      self db in
  run.2 = db
  ∧ (∀ resp, run.1 ≠ Ok resp)
  ∧ is_server_error (http_status run.1) = true.
Proof.
  intros run. unfold run. rewrite collection_destroy_raises.
  split; [reflexivity|]. split; [discriminate | reflexivity].
Qed.

(** ** More on the customer's own profile *)

(** X6.  A PUT of [me] whose payload the serializer rejects ends in the
    validation error, status 400, and saves nothing. *)
Theorem customer_me_invalid_put to_representation run_validation update
    (self : View.t) (db : DB) (c : Customer.t) (detail : JSON) :
  let request := View.request self in
  filter (λ c, Some (Customer.user_id c) = user_id (Request.user request))
    (customers db) = [c] →
  Request.method request = "PUT" →
  run_validation db c (Request.data request) = Raise (ValidationError detail) →
  CustomerViewSet.me to_representation run_validation update self db
  = (Raise (ValidationError detail), db)
  ∧ http_status (Raise (ValidationError detail)) = 400.
Proof.
  intros request Hc Hm Hv. apply get_customer_unique in Hc.
  split; [|reflexivity].
  unfold CustomerViewSet.me. run_handler. fold request.
  rewrite Hc, Hm, decide_False, decide_True by done. cbv beta. by rewrite Hv.
Qed.

Lemma customer_me_invalid_put_witness :
  CustomerViewSet.me Examples.to_representation Examples.run_validation
    Examples.update (Examples.view "PUT" Examples.alice (JStr "555") [])
    Examples.shop
  = (Raise (ValidationError (JStr "Invalid data. Expected a dictionary.")),
     Examples.shop).
Proof.
  apply (customer_me_invalid_put Examples.to_representation
    Examples.run_validation Examples.update
    (Examples.view "PUT" Examples.alice (JStr "555") []) Examples.shop
    Examples.alice_customer); reflexivity.
Defined.

(** X7.  When [me] is entered with a method that is neither GET nor PUT (the
    router sends HEAD to the handler of GET), no serializer is ever bound:
    for a user who has a customer record the handler ends in
    [UnboundLocalError], a server error, and the database is untouched. *)
Theorem customer_me_other_method to_representation run_validation update
    (self : View.t) (db : DB) (c : Customer.t) :
  let request := View.request self in
  filter (λ c, Some (Customer.user_id c) = user_id (Request.user request))
    (customers db) = [c] →
  Request.method request ≠ "GET" →
  Request.method request ≠ "PUT" →
  CustomerViewSet.me to_representation run_validation update self db
  = (Raise (UnboundLocalError "serializer"), db)
  ∧ http_status (Raise (UnboundLocalError "serializer")) = 500.
Proof.
  intros request Hc Hget Hput. apply get_customer_unique in Hc.
  split; [|reflexivity].
  unfold CustomerViewSet.me. run_handler. fold request.
  by rewrite Hc, !decide_False.
Qed.

Lemma customer_me_other_method_witness :
  CustomerViewSet.me Examples.to_representation Examples.run_validation
    Examples.update (Examples.view "HEAD" Examples.alice JNull []) Examples.shop
  = (Raise (UnboundLocalError "serializer"), Examples.shop).
Proof.
  apply (customer_me_other_method Examples.to_representation
    Examples.run_validation Examples.update
    (Examples.view "HEAD" Examples.alice JNull []) Examples.shop
    Examples.alice_customer); [reflexivity | discriminate | discriminate].
Defined.


(** X9.  An anonymous GET of [me] is not stopped by the permission check of
    the viewset: the handler runs, finds no customer for a user without id
    and ends in [DoesNotExist], a server error.  With any other method the
    anonymous caller is refused before the handler. *)
Theorem customer_me_anonymous to_representation run_validation update
    (self : View.t) (db : DB) :
  let request := View.request self in
  let run :=
    APIView.dispatch CustomerViewSet.get_permissions
      (CustomerViewSet.me to_representation run_validation update) self db in
  Request.user request = AnonymousUser →
  (Request.method request = "GET" →
     run = (Raise DoesNotExist, db) ∧ http_status run.1 = 500)
  ∧ (Request.method request ≠ "GET" →
     run.2 = db ∧ is_client_error (http_status run.1) = true).
Proof.
  intros request run Hanon.
  assert (Hnone : get_customer None db = Raise DoesNotExist)
    by (apply get_customer_missing; done).
  unfold run, APIView.dispatch, CustomerViewSet.get_permissions,
    CustomerViewSet.me.
  run_handler. fold request. rewrite Hanon. simpl. split.
  - intros Hm. rewrite Hm. simpl. rewrite Hnone. done.
  - intros Hm. rewrite decide_False by done.
    cbn [APIView.check_permissions has_permission].
    unfold APIView.permission_denied. rewrite Hanon. split; reflexivity.
Qed.

Lemma customer_me_anonymous_witness :
  APIView.dispatch CustomerViewSet.get_permissions
    (CustomerViewSet.me Examples.to_representation Examples.run_validation
       Examples.update)
    (Examples.view "GET" AnonymousUser JNull []) Examples.shop
  = (Raise DoesNotExist, Examples.shop)
  ∧ is_client_error (http_status
      (APIView.dispatch CustomerViewSet.get_permissions
         (CustomerViewSet.me Examples.to_representation Examples.run_validation
            Examples.update)
         (Examples.view "PUT" AnonymousUser JNull []) Examples.shop).1) = true.
Proof.
  split.
  - apply (proj1 (customer_me_anonymous Examples.to_representation
      Examples.run_validation Examples.update
      (Examples.view "GET" AnonymousUser JNull []) Examples.shop eq_refl)).
    reflexivity.
  - apply (proj2 (customer_me_anonymous Examples.to_representation
      Examples.run_validation Examples.update
      (Examples.view "PUT" AnonymousUser JNull []) Examples.shop eq_refl)).
    discriminate.
Defined.

(** ** More on the orders *)

(** X10.  The permission check of the orders: an anonymous caller never
    passes; a staff user always passes; a signed-in user who is not staff
    passes exactly when the method is neither PATCH nor DELETE. *)
Theorem order_permissions (self : View.t) :
  let request := View.request self in
  let check :=
    APIView.check_permissions (OrderViewSet.get_permissions self) request in
  (is_authenticated (Request.user request) = false → check ≠ Ok tt)
  ∧ (is_staff (Request.user request) = true → check = Ok tt)
  ∧ (is_authenticated (Request.user request) = true →
     is_staff (Request.user request) = false →
     (check = Ok tt ↔
      Request.method request ≠ "PATCH" ∧ Request.method request ≠ "DELETE")).
Proof.
  intros request check. subst check request.
  unfold OrderViewSet.get_permissions.
  assert (Hmem : Request.method (View.request self) ∈ ["PATCH"; "DELETE"]
                 ↔ ¬ (Request.method (View.request self) ≠ "PATCH"
                      ∧ Request.method (View.request self) ≠ "DELETE")).
  { rewrite elem_of_cons, list_elem_of_singleton.
    destruct (decide (Request.method (View.request self) = "PATCH"));
      destruct (decide (Request.method (View.request self) = "DELETE")); tauto. }
  destruct (decide (Request.method (View.request self) ∈ ["PATCH"; "DELETE"]))
    as [Hin|Hin];
    cbn [APIView.check_permissions has_permission];
    unfold APIView.permission_denied;
    destruct (Request.user (View.request self)) as [|u]; simpl;
    (split; [|split]); try discriminate; try (intros _; discriminate).
  - intros ->. reflexivity.
  - intros _ ->. split; [discriminate|]. intros Hm. tauto.
  - intros _. reflexivity.
  - intros _ _. split; [intros _|reflexivity].
    destruct (decide (Request.method (View.request self) = "PATCH"));
      destruct (decide (Request.method (View.request self) = "DELETE")); tauto.
Qed.

Lemma order_permissions_witness :
  let check self :=
    APIView.check_permissions (OrderViewSet.get_permissions self)
      (View.request self) in
  check (Examples.view "GET" AnonymousUser JNull []) ≠ Ok tt
  ∧ check (Examples.view "DELETE" Examples.admin JNull []) = Ok tt
  ∧ check (Examples.view "POST" Examples.alice JNull []) = Ok tt
  ∧ check (Examples.view "PATCH" Examples.alice JNull []) ≠ Ok tt.
Proof.
  cbv zeta. split; [|split; [|split]].
  - apply (proj1 (order_permissions (Examples.view "GET" AnonymousUser JNull []))).
    reflexivity.
  - apply (proj1 (proj2 (order_permissions
      (Examples.view "DELETE" Examples.admin JNull []))) eq_refl).
  - apply (proj2 (proj2 (order_permissions
      (Examples.view "POST" Examples.alice JNull []))) eq_refl eq_refl).
    split; discriminate.
  - intros H.
    apply (proj2 (proj2 (order_permissions
      (Examples.view "PATCH" Examples.alice JNull []))) eq_refl eq_refl) in H.
    by destruct H as [H _].
Defined.

(** A queryset method reads the database and hands it back. *)
Lemma order_queryset_reads (self : View.t) (db : DB) :
  (OrderViewSet.get_queryset self db).2 = db.
Proof.
  unfold OrderViewSet.get_queryset. run_handler.
  destruct (is_staff _); [reflexivity|]. by destruct (get_customer _ db).
Qed.

Lemma order_queryset_owner (self : View.t) (db db' : DB) (qs : list Order.t) :
  is_staff (Request.user (View.request self)) = false →
  OrderViewSet.get_queryset self db = (Ok qs, db') →
  ∃ c, c ∈ customers db
    ∧ Some (Customer.user_id c) = user_id (Request.user (View.request self))
    ∧ ∀ o, o ∈ qs → o ∈ orders db ∧ Order.customer_id o = Customer.id c.
Proof.
  intros Hstaff Hrun.
  unfold OrderViewSet.get_queryset in Hrun.
  rewrite Hstaff in Hrun. revert Hrun. run_handler. unfold get_customer.
  destruct (filter (λ c, Some (Customer.user_id c)
                         = user_id (Request.user (View.request self)))
              (customers db)) as [|c [|? ?]] eqn:Hc; simpl; try discriminate.
  intros [= <- _].
  assert (Hin : c ∈ filter (λ c, Some (Customer.user_id c)
                                 = user_id (Request.user (View.request self)))
                  (customers db)) by (rewrite Hc; left).
  apply list_elem_of_filter in Hin as [Hu Hin].
  exists c. split; [done|]. split; [done|].
  intros o Ho. apply list_elem_of_filter in Ho as [? ?]. done.
Qed.

(** X11.  Whatever the tables hold, a queryset that a user who is not staff
    obtains contains only orders of one customer record, and that record
    carries the user's id; the database is not changed. *)
Theorem order_queryset_isolation (self : View.t) (db db' : DB) (qs : list Order.t) :
  let user := Request.user (View.request self) in
  is_staff user = false →
  OrderViewSet.get_queryset self db = (Ok qs, db') →
  db' = db
  ∧ ∃ c, c ∈ customers db
      ∧ Some (Customer.user_id c) = user_id user
      ∧ ∀ o, o ∈ qs → o ∈ orders db ∧ Order.customer_id o = Customer.id c.
Proof.
  intros user Hstaff Hrun. split.
  - pose proof (order_queryset_reads self db) as Hdb. by rewrite Hrun in Hdb.
  - by apply (order_queryset_owner self db db' qs).
Qed.

Lemma order_queryset_isolation_witness :
  ∃ c, c ∈ customers Examples.shop
    ∧ Some (Customer.user_id c) = Some 7
    ∧ ∀ o, o ∈ [ {| Order.id := 1; Order.customer_id := 3 |} ] →
        o ∈ orders Examples.shop ∧ Order.customer_id o = Customer.id c.
Proof.
  apply (order_queryset_isolation (Examples.view "GET" Examples.alice JNull [])
    Examples.shop Examples.shop [ {| Order.id := 1; Order.customer_id := 3 |} ]
    eq_refl).
  vm_compute; reflexivity.
Defined.

(** X12.  A user who is not staff and has no customer record gets no
    queryset of orders: the lookup of the customer raises [DoesNotExist],
    which surfaces as a server error; the database is unchanged. *)
Theorem order_queryset_without_customer (self : View.t) (db : DB) :
  let user := Request.user (View.request self) in
  is_staff user = false →
  (∀ c, c ∈ customers db → Some (Customer.user_id c) ≠ user_id user) →
  OrderViewSet.get_queryset self db = (Raise DoesNotExist, db)
  ∧ exception_handler DoesNotExist = None.
Proof.
  intros user Hstaff Hnone. apply get_customer_missing in Hnone.
  split; [|reflexivity].
  unfold OrderViewSet.get_queryset. fold user. rewrite Hstaff.
  run_handler. by rewrite Hnone.
Qed.

Lemma order_queryset_without_customer_witness :
  OrderViewSet.get_queryset (Examples.view "GET" Examples.bob JNull [])
    Examples.shop = (Raise DoesNotExist, Examples.shop).
Proof.
  apply (order_queryset_without_customer
    (Examples.view "GET" Examples.bob JNull []) Examples.shop eq_refl).
  intros c Hc. simpl in Hc.
  repeat (apply elem_of_cons in Hc as [->|Hc]; [discriminate|]).
  inversion Hc.
Defined.

(** X13.  When the checkout payload does not validate, [create] ends in the
    validation error, status 400: [save] is not run and the database is as
    before, whatever [save] would have done. *)
Theorem order_create_invalid run_validation save to_representation
    (self : View.t) (db : DB) (detail : JSON) :
  let request := View.request self in
  run_validation db (user_id (Request.user request)) (Request.data request)
    = Raise (ValidationError detail) →
  OrderViewSet.create run_validation save to_representation self db
  = (Raise (ValidationError detail), db)
  ∧ http_status (Raise (ValidationError detail)) = 400.
Proof.
  intros request Hv. split; [|reflexivity].
  unfold OrderViewSet.create. run_handler. fold request. by rewrite Hv.
Qed.

Lemma order_create_invalid_witness :
  OrderViewSet.create Examples.create_order_run_validation
    Examples.create_order_save Examples.order_to_representation
    (Examples.view "POST" Examples.alice (JDict []) []) Examples.shop
  = (Raise (ValidationError (JStr "cart_id is required.")), Examples.shop).
Proof.
  apply (order_create_invalid Examples.create_order_run_validation
    Examples.create_order_save Examples.order_to_representation
    (Examples.view "POST" Examples.alice (JDict []) []) Examples.shop).
  reflexivity.
Defined.

(** How [get_object] ends, given the queryset it was handed. *)
Lemma get_object_or_404_found {A} (pk : A → Z) to_python (qs : list A)
    (value : string) (obj : A) :
  ModelViewSet.get_object_or_404 pk to_python qs value = Ok obj →
  obj ∈ qs ∧ to_python value = Some (pk obj).
Proof.
  unfold ModelViewSet.get_object_or_404.
  destruct (to_python value) as [k|]; [|discriminate].
  destruct (filter (λ x, pk x = k) qs) as [|x [|? ?]] eqn:Hf; simpl;
    try discriminate.
  intros [= ->].
  assert (Hin : obj ∈ filter (λ x, pk x = k) qs) by (rewrite Hf; left).
  apply list_elem_of_filter in Hin as [<- ?]. done.
Qed.

Lemma get_object_or_404_absent {A} (pk : A → Z) to_python (qs : list A)
    (value : string) (k : Z) :
  to_python value = Some k →
  (∀ x, x ∈ qs → pk x ≠ k) →
  ModelViewSet.get_object_or_404 pk to_python qs value = Raise Http404.
Proof.
  intros Hpy Hno. unfold ModelViewSet.get_object_or_404. rewrite Hpy.
  apply (filter_empty_iff (λ x, pk x = k)) in Hno. by rewrite Hno.
Qed.

(** X14.  On a detail route of the orders, the object that a user who is
    not staff obtains is an order of the table whose customer record
    carries the user's id, whatever key the URL holds; the database is not
    changed.  (The filter backends only narrow the queryset.) *)
Theorem order_object_isolation to_python filter_queryset has_object_permission
    (self : View.t) (db db' : DB) (o : Order.t) :
  let user := Request.user (View.request self) in
  (∀ request qs x, x ∈ filter_queryset request qs → x ∈ qs) →
  is_staff user = false →
  OrderViewSet_get_object to_python filter_queryset has_object_permission self db
    = (Ok o, db') →
  db' = db
  ∧ o ∈ orders db
  ∧ ∃ c, c ∈ customers db
      ∧ Some (Customer.user_id c) = user_id user
      ∧ Order.customer_id o = Customer.id c.
Proof.
  intros user Hnarrow Hstaff.
  unfold OrderViewSet_get_object, GenericAPIView.get_object, bind at 1.
  destruct (OrderViewSet.get_queryset self db) as [[qs|e] db1] eqn:Hqs;
    [|discriminate].
  pose proof (order_queryset_reads self db) as Hdb. rewrite Hqs in Hdb.
  simpl in Hdb. subst db1.
  destruct (order_queryset_owner self db db qs Hstaff Hqs)
    as (c & Hc & Hu & Hall).
  destruct (View.kwargs self !! "pk") as [value|]; [|discriminate].
  run_handler.
  destruct (ModelViewSet.get_object_or_404 Order.id to_python
              (filter_queryset (View.request self) qs) value) as [obj|e] eqn:Hget;
    [|discriminate].
  apply get_object_or_404_found in Hget as [Hin _].
  apply Hnarrow, Hall in Hin as [Hin Hcust].
  destruct (has_object_permission (View.request self) obj).
  - intros [= <- <-]. split; [done|]. split; [done|]. eauto.
  - unfold APIView.permission_denied. destruct (is_authenticated _); discriminate.
Qed.

Lemma order_object_isolation_witness :
  {| Order.id := 1; Order.customer_id := 3 |} ∈ orders Examples.shop
  ∧ ∃ c, c ∈ customers Examples.shop
      ∧ Some (Customer.user_id c) = Some 7
      ∧ 3 = Customer.id c.
Proof.
  apply (order_object_isolation Examples.to_python Examples.all_rows
    Examples.allow (Examples.view "GET" Examples.alice JNull [("pk", "1")])
    Examples.shop Examples.shop {| Order.id := 1; Order.customer_id := 3 |}).
  - intros request qs x Hx. exact Hx.
  - reflexivity.
  - vm_compute; reflexivity.
Defined.

(** X15.  The key of an order of another customer is answered like the key
    of no order at all: for a user who is not staff and whose customer
    record is [c], a detail route whose key names no order of [c] ends in
    404. *)
Theorem order_object_foreign to_python filter_queryset has_object_permission
    (self : View.t) (db : DB) (c : Customer.t) (value : string) (k : Z) :
  let user := Request.user (View.request self) in
  (∀ request qs x, x ∈ filter_queryset request qs → x ∈ qs) →
  is_staff user = false →
  filter (λ c, Some (Customer.user_id c) = user_id user) (customers db) = [c] →
  View.kwargs self !! "pk" = Some value →
  to_python value = Some k →
  (∀ o, o ∈ orders db → Order.id o = k → Order.customer_id o ≠ Customer.id c) →
  OrderViewSet_get_object to_python filter_queryset has_object_permission self db
  = (Raise Http404, db)
  ∧ http_status (Raise Http404) = 404.
Proof.
  intros user Hnarrow Hstaff Hc Hkw Hpy Hforeign. split; [|reflexivity].
  apply get_customer_unique in Hc.
  unfold OrderViewSet_get_object, GenericAPIView.get_object,
    OrderViewSet.get_queryset.
  fold user. rewrite Hstaff. run_handler. rewrite Hc, Hkw.
  rewrite (get_object_or_404_absent Order.id to_python _ value k Hpy); [done|].
  intros o Ho Hid. apply Hnarrow in Ho.
  apply list_elem_of_filter in Ho as [Hcust Ho].
  by apply (Hforeign o Ho Hid).
Qed.

(** Order 2 is the staff user's: alice asks for it and is told 404. *)
Lemma order_object_foreign_witness :
  OrderViewSet_get_object Examples.to_python Examples.all_rows Examples.allow
    (Examples.view "GET" Examples.alice JNull [("pk", "2")]) Examples.shop
  = (Raise Http404, Examples.shop).
Proof.
  apply (order_object_foreign Examples.to_python Examples.all_rows
    Examples.allow (Examples.view "GET" Examples.alice JNull [("pk", "2")])
    Examples.shop Examples.alice_customer "2" 2).
  - intros request qs x Hx. exact Hx.
  - reflexivity.
  - reflexivity.
  - vm_compute; reflexivity.
  - reflexivity.
  - intros o Ho Hid. simpl in Ho.
    repeat (apply elem_of_cons in Ho as [->|Ho]; [simpl in *; lia|]).
    inversion Ho.
Defined.

(** ** More on the nested routes *)

(** X16.  A parent key in the URL that the key field cannot read makes the
    queryset of either nested route end in [ValueError], a server error,
    with the database untouched. *)
Theorem nested_queryset_unreadable_key product_to_python cart_to_python
    (self : View.t) (db : DB) :
  (∀ value,
     View.kwargs self !! "product_pk" = Some value →
     product_to_python value = None →
     ReviewViewSet.get_queryset product_to_python self db = (Raise ValueError, db))
  ∧ (∀ value,
     View.kwargs self !! "cart_pk" = Some value →
     cart_to_python value = None →
     CartItemViewSet.get_queryset cart_to_python self db = (Raise ValueError, db))
  ∧ exception_handler ValueError = None.
Proof.
  split; [|split; [|reflexivity]]; intros value Hkw Hpy.
  - unfold ReviewViewSet.get_queryset. run_handler. by rewrite Hkw, Hpy.
  - unfold CartItemViewSet.get_queryset. run_handler. by rewrite Hkw, Hpy.
Qed.

Lemma nested_queryset_unreadable_key_witness :
  let self := Examples.view "GET" Examples.alice JNull
                [("product_pk", "x"); ("cart_pk", "y")] in
  ReviewViewSet.get_queryset Examples.to_python self Examples.shop
  = (Raise ValueError, Examples.shop)
  ∧ CartItemViewSet.get_queryset Examples.to_python self Examples.shop
    = (Raise ValueError, Examples.shop).
Proof.
  cbv zeta. split.
  - apply (proj1 (nested_queryset_unreadable_key Examples.to_python
      Examples.to_python _ Examples.shop) "x"); [vm_compute; reflexivity | reflexivity].
  - apply (proj1 (proj2 (nested_queryset_unreadable_key Examples.to_python
      Examples.to_python _ Examples.shop)) "y");
      [vm_compute; reflexivity | reflexivity].
Defined.

(** X17.  On either nested route the serializer context and the queryset
    agree on the parent: whenever the queryset is obtained, the context
    holds, under [product_id] (or [cart_id]), the URL value whose key every
    row of the queryset carries. *)
Theorem nested_context_matches_queryset product_to_python cart_to_python
    (self : View.t) (db db' : DB) :
  (∀ qs, ReviewViewSet.get_queryset product_to_python self db = (Ok qs, db') →
     ∃ value p,
       ReviewViewSet_get_serializer_context self = Ok {[ "product_id" := value ]}
       ∧ product_to_python value = Some p
       ∧ ∀ r, r ∈ qs → Review.product_id r = p)
  ∧ (∀ qs, CartItemViewSet.get_queryset cart_to_python self db = (Ok qs, db') →
     ∃ value c,
       CartItemViewSet_get_serializer_context self = Ok {[ "cart_id" := value ]}
       ∧ cart_to_python value = Some c
       ∧ ∀ i, i ∈ qs → CartItem.cart_id i = c).
Proof.
  split; intros qs.
  - unfold ReviewViewSet.get_queryset, ReviewViewSet_get_serializer_context.
    run_handler.
    destruct (View.kwargs self !! "product_pk") as [value|]; [|discriminate].
    destruct (product_to_python value) as [p|] eqn:Hpy; [|discriminate].
    intros [= <- _]. exists value, p. split; [reflexivity|]. split; [done|].
    intros r Hr. by apply list_elem_of_filter in Hr as [? _].
  - unfold CartItemViewSet.get_queryset, CartItemViewSet_get_serializer_context.
    run_handler.
    destruct (View.kwargs self !! "cart_pk") as [value|]; [|discriminate].
    destruct (cart_to_python value) as [c|] eqn:Hpy; [|discriminate].
    intros [= <- _]. exists value, c. split; [reflexivity|]. split; [done|].
    intros i Hi. by apply list_elem_of_filter in Hi as [? _].
Qed.

Lemma nested_context_matches_queryset_witness :
  let self := Examples.view "POST" Examples.alice JNull
                [("product_pk", "1"); ("cart_pk", "2")] in
  (∃ value p,
     ReviewViewSet_get_serializer_context self = Ok {[ "product_id" := value ]}
     ∧ Examples.to_python value = Some p
     ∧ ∀ r, r ∈ [ {| Review.id := 1; Review.product_id := 1 |};
                  {| Review.id := 3; Review.product_id := 1 |} ] →
         Review.product_id r = p)
  ∧ (∃ value c,
       CartItemViewSet_get_serializer_context self = Ok {[ "cart_id" := value ]}
       ∧ Examples.to_python value = Some c
       ∧ ∀ i, i ∈ [ {| CartItem.id := 2; CartItem.cart_id := 2;
                       CartItem.product_id := 1 |} ] →
           CartItem.cart_id i = c).
Proof.
  cbv zeta. split.
  - apply (proj1 (nested_context_matches_queryset Examples.to_python
      Examples.to_python _ Examples.shop Examples.shop)).
    vm_compute; reflexivity.
  - apply (proj2 (nested_context_matches_queryset Examples.to_python
      Examples.to_python _ Examples.shop Examples.shop)).
    vm_compute; reflexivity.
Defined.

(** X18.  A cart item cannot be deleted through the URL of another cart:
    when no item with the key of the URL lies in the cart of the URL, the
    DELETE ends in 404 and every table is as before.  (The filter backends
    only narrow the queryset.) *)
Theorem cart_item_destroy_other_cart cart_to_python item_to_python
    filter_queryset has_object_permission (self : View.t) (db : DB)
    (cart_pk pk : string) (c k : Z) :
  (∀ request qs x, x ∈ filter_queryset request qs → x ∈ qs) →
  View.kwargs self !! "cart_pk" = Some cart_pk →
  cart_to_python cart_pk = Some c →
  View.kwargs self !! "pk" = Some pk →
  item_to_python pk = Some k →
  (∀ i, i ∈ cart_items db → CartItem.id i = k → CartItem.cart_id i ≠ c) →
  CartItemViewSet_destroy cart_to_python item_to_python filter_queryset
    has_object_permission self db
  = (Raise Http404, db)
  ∧ http_status (Raise Http404) = 404.
Proof.
  intros Hnarrow Hckw Hcpy Hkw Hpy Hother. split; [|reflexivity].
  unfold CartItemViewSet_destroy, GenericAPIView.destroy,
    GenericAPIView.get_object, CartItemViewSet.get_queryset.
  run_handler. rewrite Hckw, Hcpy, Hkw.
  rewrite (get_object_or_404_absent CartItem.id item_to_python _ pk k Hpy);
    [done|].
  intros i Hi Hid. apply Hnarrow in Hi.
  apply list_elem_of_filter in Hi as [Hcart Hi].
  by apply (Hother i Hi Hid).
Qed.

(** Item 1 lies in cart 1; a DELETE of item 1 under cart 2 finds nothing. *)
Lemma cart_item_destroy_other_cart_witness :
  CartItemViewSet_destroy Examples.to_python Examples.to_python
    Examples.all_rows Examples.allow
    (Examples.view "DELETE" Examples.alice JNull [("cart_pk", "2"); ("pk", "1")])
    Examples.shop
  = (Raise Http404, Examples.shop).
Proof.
  apply (cart_item_destroy_other_cart Examples.to_python Examples.to_python
    Examples.all_rows Examples.allow
    (Examples.view "DELETE" Examples.alice JNull [("cart_pk", "2"); ("pk", "1")])
    Examples.shop "2" "1" 2 1).
  - intros request qs x Hx. exact Hx.
  - vm_compute; reflexivity.
  - reflexivity.
  - vm_compute; reflexivity.
  - reflexivity.
  - intros i Hi Hid. simpl in Hi.
    repeat (apply elem_of_cons in Hi as [->|Hi]; [simpl in *; lia|]).
    inversion Hi.
Defined.

(** X19.  A cart item that the request's queryset holds in the cart of the
    URL, under a key no other item there shares, is deleted by the DELETE:
    the answer is 204, the items left are exactly those with another key,
    and the products and order lines are untouched. *)
Theorem cart_item_destroy_own_cart cart_to_python item_to_python
    filter_queryset has_object_permission (self : View.t) (db : DB)
    (cart_pk pk : string) (c k : Z) (item : CartItem.t) :
  View.kwargs self !! "cart_pk" = Some cart_pk →
  cart_to_python cart_pk = Some c →
  View.kwargs self !! "pk" = Some pk →
  item_to_python pk = Some k →
  filter (λ i, CartItem.id i = k)
    (filter_queryset (View.request self)
       (filter (λ i, CartItem.cart_id i = c) (cart_items db))) = [item] →
  has_object_permission (View.request self) item = true →
  let run :=
    CartItemViewSet_destroy cart_to_python item_to_python filter_queryset
      has_object_permission self db in
  run.1 = Ok {| Response.data := JNull; Response.status := 204 |}
  ∧ (∀ i, i ∈ cart_items run.2 ↔ i ∈ cart_items db ∧ CartItem.id i ≠ k)
  ∧ products run.2 = products db
  ∧ order_items run.2 = order_items db.
Proof.
  intros Hckw Hcpy Hkw Hpy Hitem Hperm run.
  assert (Hin : item ∈ filter (λ i, CartItem.id i = k)
                  (filter_queryset (View.request self)
                     (filter (λ i, CartItem.cart_id i = c) (cart_items db))))
    by (rewrite Hitem; left).
  apply list_elem_of_filter in Hin as [Hid _].
  assert (Hrun : run = (Ok {| Response.data := JNull; Response.status := 204 |},
                        delete_cart_item item db)).
  { unfold run, CartItemViewSet_destroy, GenericAPIView.destroy,
      GenericAPIView.get_object, CartItemViewSet.get_queryset,
      ModelViewSet.get_object_or_404.
    run_handler. rewrite Hckw, Hcpy, Hkw, Hpy, Hitem. simpl.
    rewrite Hperm. reflexivity. }
  rewrite Hrun. simpl. split; [reflexivity|]. split; [|done].
  intros i. rewrite list_elem_of_filter, Hid. tauto.
Qed.

Lemma cart_item_destroy_own_cart_witness :
  let run :=
    CartItemViewSet_destroy Examples.to_python Examples.to_python
      Examples.all_rows Examples.allow
      (Examples.view "DELETE" Examples.alice JNull [("cart_pk", "1"); ("pk", "1")])
      Examples.shop in
  run.1 = Ok {| Response.data := JNull; Response.status := 204 |}
  ∧ (∀ i, i ∈ cart_items run.2 ↔ i ∈ cart_items Examples.shop ∧ CartItem.id i ≠ 1)
  ∧ products run.2 = products Examples.shop
  ∧ order_items run.2 = order_items Examples.shop.
Proof.
  apply (cart_item_destroy_own_cart Examples.to_python Examples.to_python
    Examples.all_rows Examples.allow
    (Examples.view "DELETE" Examples.alice JNull [("cart_pk", "1"); ("pk", "1")])
    Examples.shop "1" "1" 1 1
    {| CartItem.id := 1; CartItem.cart_id := 1; CartItem.product_id := 2 |}).
  - vm_compute; reflexivity.
  - reflexivity.
  - vm_compute; reflexivity.
  - reflexivity.
  - vm_compute; reflexivity.
  - reflexivity.
Defined.

(** ** The methods a route admits *)

Lemma upper_lower_ascii (a : Ascii.ascii) :
  upper_ascii (lower_ascii a) = upper_ascii a.
Proof. destruct a as [[] [] [] [] [] [] [] []]; reflexivity. Qed.

Lemma lower_upper_ascii (a : Ascii.ascii) :
  lower_ascii (upper_ascii a) = lower_ascii a.
Proof. destruct a as [[] [] [] [] [] [] [] []]; reflexivity. Qed.

Lemma upper_lower (s : string) : upper (lower s) = upper s.
Proof.
  induction s as [|a s IH]; simpl; [reflexivity|].
  by rewrite upper_lower_ascii, IH.
Qed.

Lemma lower_upper (s : string) : lower (upper s) = lower s.
Proof.
  induction s as [|a s IH]; simpl; [reflexivity|].
  by rewrite lower_upper_ascii, IH.
Qed.

(** For a method in upper case, as the request carries it, and a list of
    names in lower case, the test of [dispatch] is membership of the method
    in the list of the names in upper case. *)
Lemma method_allowed_upper (http_method_names : list string) (request : Request.t) :
  upper (Request.method request) = Request.method request →
  Forall (λ name, lower name = name) http_method_names →
  method_allowed http_method_names request = true
  ↔ Request.method request ∈ upper <$> http_method_names.
Proof.
  intros Hup Hlow. unfold method_allowed. rewrite bool_decide_eq_true. split.
  - intros Hin. rewrite <- Hup, <- upper_lower.
    apply list_elem_of_fmap. eauto.
  - intros Hin. apply list_elem_of_fmap in Hin as (name & -> & Hin).
    rewrite lower_upper. rewrite Forall_forall in Hlow.
    by rewrite (Hlow name Hin).
Qed.

(** X20.  The cart-items route admits exactly GET, POST, PATCH and DELETE
    (so neither PUT nor HEAD), and among the methods it admits the default
    serializer serves exactly GET and DELETE. *)
Theorem cart_item_methods (self : View.t) :
  let request := View.request self in
  upper (Request.method request) = Request.method request →
  (method_allowed CartItemViewSet.http_method_names request = true
   ↔ Request.method request ∈ ["GET"; "POST"; "PATCH"; "DELETE"])
  ∧ (method_allowed CartItemViewSet.http_method_names request = true →
     (CartItemViewSet.get_serializer_class self = CartItemSerializer
      ↔ Request.method request = "GET" ∨ Request.method request = "DELETE")).
Proof.
  intros request Hup.
  assert (Hiff : method_allowed CartItemViewSet.http_method_names request = true
                 ↔ Request.method request ∈ ["GET"; "POST"; "PATCH"; "DELETE"]).
  { apply (method_allowed_upper CartItemViewSet.http_method_names request Hup).
    repeat constructor. }
  split; [exact Hiff|]. intros Hallowed. apply Hiff in Hallowed.
  unfold CartItemViewSet.get_serializer_class. fold request.
  repeat (apply elem_of_cons in Hallowed as [->|Hallowed]);
    [| | | |inversion Hallowed]; simpl; split; intros H;
    try discriminate; try (destruct H; discriminate); auto.
Qed.

Lemma cart_item_methods_witness :
  method_allowed CartItemViewSet.http_method_names
    (View.request (Examples.view "PUT" Examples.alice JNull [])) ≠ true
  ∧ (CartItemViewSet.get_serializer_class
       (Examples.view "DELETE" Examples.alice JNull []) = CartItemSerializer
     ↔ "DELETE" = "GET" ∨ "DELETE" = "DELETE").
Proof.
  split.
  - intros H.
    apply (proj1 (cart_item_methods (Examples.view "PUT" Examples.alice JNull [])
      eq_refl)) in H.
    repeat (apply elem_of_cons in H as [H|H]; [discriminate H|]).
    inversion H.
  - apply (proj2 (cart_item_methods
      (Examples.view "DELETE" Examples.alice JNull []) eq_refl)).
    reflexivity.
Defined.

(** X21.  The orders route admits exactly GET, POST, PATCH, DELETE, HEAD and
    OPTIONS (so no PUT); among them POST selects the checkout serializer,
    PATCH the updating one and the four others the order serializer, and
    the two methods that ask for a staff user are PATCH and DELETE. *)
Theorem order_methods (self : View.t) :
  let request := View.request self in
  upper (Request.method request) = Request.method request →
  (method_allowed OrderViewSet.http_method_names request = true
   ↔ Request.method request
       ∈ ["GET"; "POST"; "PATCH"; "DELETE"; "HEAD"; "OPTIONS"])
  ∧ (method_allowed OrderViewSet.http_method_names request = true →
     (OrderViewSet.get_serializer_class self = OrderSerializer
      ↔ Request.method request ∈ ["GET"; "DELETE"; "HEAD"; "OPTIONS"])
     ∧ (OrderViewSet.get_permissions self = [IsAdminUser]
        ↔ Request.method request ∈ ["PATCH"; "DELETE"])).
Proof.
  intros request Hup.
  assert (Hiff : method_allowed OrderViewSet.http_method_names request = true
                 ↔ Request.method request
                     ∈ ["GET"; "POST"; "PATCH"; "DELETE"; "HEAD"; "OPTIONS"]).
  { apply (method_allowed_upper OrderViewSet.http_method_names request Hup).
    repeat constructor. }
  split; [exact Hiff|]. intros Hallowed. apply Hiff in Hallowed.
  unfold OrderViewSet.get_serializer_class, OrderViewSet.get_permissions.
  fold request.
  repeat (apply elem_of_cons in Hallowed as [->|Hallowed]);
    [| | | | | |inversion Hallowed];
    (split; [simpl|destruct (decide _) as [Hin|Hin]]; split; intros H;
     first [ reflexivity | discriminate H | solve [repeat constructor]
           | solve [exfalso; apply Hin; repeat constructor]
           | solve [exfalso;
                    repeat (apply elem_of_cons in H as [H|H]; [discriminate H|]);
                    inversion H]
           | solve [exfalso;
                    repeat (apply elem_of_cons in Hin as [Hin|Hin];
                            [discriminate Hin|]);
                    inversion Hin] ]).
Qed.

Lemma order_methods_witness :
  method_allowed OrderViewSet.http_method_names
    (View.request (Examples.view "PUT" Examples.admin JNull [])) ≠ true
  ∧ OrderViewSet.get_serializer_class (Examples.view "HEAD" Examples.alice JNull [])
    = OrderSerializer.
Proof.
  split.
  - intros H.
    apply (proj1 (order_methods (Examples.view "PUT" Examples.admin JNull [])
      eq_refl)) in H.
    repeat (apply elem_of_cons in H as [H|H]; [discriminate H|]).
    inversion H.
  - apply (proj1 (proj2 (order_methods
      (Examples.view "HEAD" Examples.alice JNull []) eq_refl) eq_refl)).
    do 2 right. left.
Defined.

(** ** Composed behaviour *)

(** X22.  A second DELETE of a product that the first one removed answers
    404: when the first request deletes product [p] and the filter backends
    only narrow the queryset, the same request on the database it left
    finds no product and changes nothing. *)
Theorem product_destroy_twice to_python filter_queryset has_object_permission
    (self : View.t) (db : DB) (value : string) (p : Z) (instance : Product.t) :
  (∀ request qs x, x ∈ filter_queryset request qs → x ∈ qs) →
  View.kwargs self !! "pk" = Some value →
  to_python value = Some p →
  (∀ oi, oi ∈ order_items db → OrderItem.product_id oi ≠ p) →
  filter (λ x, Product.id x = p) (filter_queryset (View.request self) (products db))
    = [instance] →
  has_object_permission (View.request self) instance = true →
  let destroy :=
    ProductViewSet.destroy to_python filter_queryset has_object_permission self in
  (destroy db).1 = Ok {| Response.data := JNull; Response.status := 204 |}
  ∧ destroy (destroy db).2 = (Raise Http404, (destroy db).2).
Proof.
  intros Hnarrow Hkw Hpy Hno Hget Hperm destroy. unfold destroy.
  destruct (product_destroy_deletes _ _ _ self db value p instance
              Hkw Hpy Hno Hget Hperm) as [Hrun Hid].
  rewrite Hrun. simpl. split; [reflexivity|].
  apply (product_destroy_not_found _ _ _ self _ value p Hkw Hpy).
  - exact Hno.
  - intros x Hx Hxp. apply Hnarrow in Hx. simpl in Hx.
    apply list_elem_of_filter in Hx as [Hne _]. congruence.
Qed.

Lemma product_destroy_twice_witness :
  let destroy :=
    ProductViewSet.destroy Examples.to_python Examples.all_rows Examples.allow
      (Examples.view "DELETE" Examples.admin JNull [("pk", "2")]) in
  (destroy Examples.shop).1
  = Ok {| Response.data := JNull; Response.status := 204 |}
  ∧ destroy (destroy Examples.shop).2 = (Raise Http404, (destroy Examples.shop).2).
Proof.
  apply (product_destroy_twice Examples.to_python Examples.all_rows
    Examples.allow (Examples.view "DELETE" Examples.admin JNull [("pk", "2")])
    Examples.shop "2" 2 {| Product.id := 2; Product.collection_id := 1 |}).
  - intros request qs x Hx. exact Hx.
  - vm_compute; reflexivity.
  - reflexivity.
  - intros oi Hoi. simpl in Hoi. apply list_elem_of_singleton in Hoi as ->.
    simpl. lia.
  - vm_compute; reflexivity.
  - reflexivity.
Defined.

(** X23.  The [history] action is open to every caller of a GET: the
    permission check of the viewset lets an anonymous GET through and the
    placeholder is the answer, while an anonymous request with another
    method is refused. *)
Theorem customer_history_open (self : View.t) (pk : option string) (db : DB) :
  let request := View.request self in
  let run :=
    APIView.dispatch CustomerViewSet.get_permissions
      (λ self, CustomerViewSet.history self pk) self db in
  (Request.method request = "GET" →
     run = (Ok {| Response.data := JStr "not implemented yet";
                  Response.status := 200 |}, db))
  ∧ (Request.method request ≠ "GET" →
     Request.user request = AnonymousUser →
     run.2 = db ∧ is_client_error (http_status run.1) = true).
Proof.
  intros request run.
  unfold run, APIView.dispatch, CustomerViewSet.get_permissions. fold request.
  run_handler. split.
  - intros ->. reflexivity.
  - intros Hm Hanon. rewrite decide_False by done.
    cbn [APIView.check_permissions has_permission].
    unfold APIView.permission_denied. rewrite Hanon. split; reflexivity.
Qed.

Lemma customer_history_open_witness :
  APIView.dispatch CustomerViewSet.get_permissions
    (λ self, CustomerViewSet.history self (Some "4"))
    (Examples.view "GET" AnonymousUser JNull [("pk", "4")]) Examples.shop
  = (Ok {| Response.data := JStr "not implemented yet"; Response.status := 200 |},
     Examples.shop)
  ∧ is_client_error (http_status
      (APIView.dispatch CustomerViewSet.get_permissions
         (λ self, CustomerViewSet.history self (Some "4"))
         (Examples.view "HEAD" AnonymousUser JNull [("pk", "4")])
         Examples.shop).1) = true.
Proof.
  split.
  - apply (proj1 (customer_history_open
      (Examples.view "GET" AnonymousUser JNull [("pk", "4")]) (Some "4")
      Examples.shop)).
    reflexivity.
  - apply (proj2 (customer_history_open
      (Examples.view "HEAD" AnonymousUser JNull [("pk", "4")]) (Some "4")
      Examples.shop)); [discriminate | reflexivity].
Defined.
